(** * Promoter: the credit ledger and its transactional write path

    A shallow embedding of the Go packages [database] (user.go, schema.go,
    database.go) and [api] (api.go, handlers.go, routes.go, types) of
    SkynetLabs/promoter, and the properties of the credit ledger, the balance
    calculation and the retry wrapper [WithDBSession].

    Conventions.
    - Go's [float64] is Rocq's primitive binary64 [float]; [int] is [Z].
    - A Go [error] that may be nil is an [option error].
    - The MongoDB server and driver are external: they are modelled by the
      [mongo] module below, as far as the calls made by this repository need
      (InsertOne, Aggregate with the one pipeline shape used, sessions). *)

From Stdlib Require Import ZArith List String Bool Lia Permutation.
From Stdlib Require Import Floats Numbers.Cyclic.Int63.Uint63.
Import ListNotations.

#[local] Open Scope string_scope.
#[local] Open Scope list_scope.

(* ================================================================== *)
(** ** Go errors *)
(* ================================================================== *)

Module errors.

(** What the MongoDB driver reports.  [DuplicateKey] is server error 11000,
    [WriteConflict] is the transient transaction error 112; everything else
    (network, command failures) is [CommandError]. *)
Inductive MongoError :=
  | DuplicateKey
  | WriteConflict
  | CommandError (msg : string).

(** Go [error] values occurring in the code base: driver errors,
    [errors.New], and [errors.AddContext] wrapping. *)
Inductive error :=
  | Mongo (e : MongoError)
  | New (msg : string)
  | Context (ctx : string) (cause : error).

(** [errors.AddContext(err, s)], used in the sources on non-nil errors only. *)
Definition AddContext (err : error) (s : string) : error := Context s err.

(** The driver error at the root of a chain of contexts. *)
Fixpoint rootCause (e : error) : option MongoError :=
  match e with
  | Mongo m => Some m
  | New _ => None
  | Context _ c => rootCause c
  end.

End errors.
Import errors.

(** Go's [(value, error)] results. *)
Inductive result (A : Type) :=
  | Ok (a : A)
  | Err (e : error).
Arguments Ok {A} a.
Arguments Err {A} e.

(** The [err] of a [(value, err)] pair: [None] is Go's nil. *)
Definition errOf {A} (r : result A) : option error :=
  match r with Ok _ => None | Err e => Some e end.

(* ================================================================== *)
(** ** BSON documents *)
(* ================================================================== *)

Module bson.

(** Field values, for the Go types the structs of user.go marshal:
    string, float64, int and time.Time. *)
Inductive value :=
  | String (s : string)
  | Double (f : float)
  | Int32 (i : Z)
  | DateTime (millis : Z).

(** [bson.D]: an ordered list of fields. *)
Definition D := list (string * value).

Fixpoint lookup (k : string) (d : D) : option value :=
  match d with
  | [] => None
  | (k', v) :: d' => if String.eqb k' k then Some v else lookup k d'
  end.

(** The [_id] of a stored document: a caller-supplied string
    ([Txn.ID] is tagged [bson:"_id"]) or a driver-generated ObjectID. *)
Inductive ID :=
  | idString (s : string)
  | ObjectID (n : N).

Definition ID_eqb (a b : ID) : bool :=
  match a, b with
  | idString s, idString t => String.eqb s t
  | ObjectID n, ObjectID m => N.eqb n m
  | _, _ => false
  end.

(** A document as stored in a collection: every stored document has an
    [_id]. *)
Record doc := { _id : ID; fields : D }.

(** A struct marshalled for insertion: with an [_id] when the struct has a
    field tagged [_id], without one otherwise. *)
Definition marshalled := (option ID * D)%type.

Definition float_of_Z (z : Z) : float :=
  if (z <? 0)%Z then PrimFloat.opp (PrimFloat.of_uint63 (Uint63.of_Z (- z)))
  else PrimFloat.of_uint63 (Uint63.of_Z z).

(** The number a field value contributes to [$sum]; strings and dates
    contribute nothing. *)
Definition numeric (v : value) : option float :=
  match v with
  | Double f => Some f
  | Int32 i => Some (float_of_Z i)
  | _ => None
  end.

Definition value_eqb (a b : value) : bool :=
  match a, b with
  | String s, String t => String.eqb s t
  | Double x, Double y => PrimFloat.eqb x y
  | Int32 i, Int32 j => Z.eqb i j
  | DateTime i, DateTime j => Z.eqb i j
  | _, _ => false
  end.

End bson.

(* ================================================================== *)
(** ** The MongoDB collaborator *)
(* ================================================================== *)

Module mongo.

(** The collection names of database.go. *)
Inductive collection :=
  | collSubscriptions   (* "subscriptions" *)
  | collTnxs            (* "txns" *)
  | collUsers.          (* "users" *)

Definition collName (c : collection) : string :=
  match c with
  | collSubscriptions => "subscriptions"
  | collTnxs => "txns"
  | collUsers => "users"
  end.

(** [mongo.IndexModel]: the keys, and of [options.Index()] the name and the
    unique flag (false unless [SetUnique(true)] is called). *)
Record IndexModel := {
  Keys : list (string * Z);
  Name : string;
  Unique : bool
}.

(** The contents of the three collections of a [*mongo.Database]. *)
Record Database := {
  subscriptions : list bson.doc;
  txns : list bson.doc;
  users : list bson.doc
}.

Definition Collection (d : Database) (c : collection) : list bson.doc :=
  match c with
  | collSubscriptions => subscriptions d
  | collTnxs => txns d
  | collUsers => users d
  end.

Definition setCollection (d : Database) (c : collection) (l : list bson.doc)
  : Database :=
  match c with
  | collSubscriptions =>
      {| subscriptions := l; txns := txns d; users := users d |}
  | collTnxs =>
      {| subscriptions := subscriptions d; txns := l; users := users d |}
  | collUsers =>
      {| subscriptions := subscriptions d; txns := txns d; users := l |}
  end.

(** Failures the environment may inject into a driver call.  A duplicate
    key is never injected: it is decided by the contents of the store. *)
Inductive Fault :=
  | FaultWriteConflict
  | FaultOther (msg : string).

Definition faultError (f : Fault) : error :=
  match f with
  | FaultWriteConflict => Mongo WriteConflict
  | FaultOther m => Mongo (CommandError m)
  end.

(** The calls sent to the server, for the trace. *)
Inductive Op :=
  | OpInsertOne (c : collection) (d : bson.marshalled)
  | OpAggregate (c : collection)
  | OpStartSession
  | OpStartTransaction
  | OpCommit
  | OpAbort.

(** [mongo.IsDuplicateKeyError(err)]; false on nil.  The sources apply it
    to errors as the driver returned them. *)
Definition IsDuplicateKeyError (err : option error) : bool :=
  match err with
  | Some (Mongo DuplicateKey) => true
  | _ => false
  end.

(** Two documents agree on every key of an index (a missing field is
    null, and null equals null). *)
Definition sameKeys (keys : list (string * Z)) (a b : bson.doc) : bool :=
  forallb (fun k =>
    match bson.lookup (fst k) (bson.fields a),
          bson.lookup (fst k) (bson.fields b) with
    | Some x, Some y => bson.value_eqb x y
    | None, None => true
    | _, _ => false
    end) keys.

(** Whether inserting [d] breaks the uniqueness of [_id] (always enforced)
    or of one of the unique indexes [ixs] of the collection. *)
Definition hasID (i : bson.ID) (docs : list bson.doc) : bool :=
  existsb (fun d' => bson.ID_eqb (bson._id d') i) docs.

Definition duplicateKey (ixs : list IndexModel) (docs : list bson.doc)
    (d : bson.doc) : bool :=
  hasID (bson._id d) docs
  || existsb (fun ix =>
       Unique ix && existsb (fun d' => sameKeys (Keys ix) d' d) docs) ixs.

(** The pipeline of userCredit and userSpent:
    [{$match: {sub: sub}}, {$group: {_id: {sub: "$sub"}, out: {$sum: "$field"}}}].
    All matched documents have the same [sub], so there is at most one group;
    with no matched document the cursor is empty.  [$sum] adds the numeric
    values of [field] in collection order and skips documents without one.
    The [_id] of the group is left out of the result document. *)
Definition matchesSub (sub : string) (d : bson.doc) : bool :=
  match bson.lookup "sub" (bson.fields d) with
  | Some (bson.String s) => String.eqb s sub
  | _ => false
  end.

Definition sumField (field : string) (docs : list bson.doc) : float :=
  fold_left (fun acc d =>
    match bson.lookup field (bson.fields d) with
    | Some v => match bson.numeric v with
                | Some x => PrimFloat.add acc x
                | None => acc
                end
    | None => acc
    end) docs PrimFloat.zero.

Definition matchGroupSum (sub out field : string) (docs : list bson.doc)
  : list bson.D :=
  match filter (matchesSub sub) docs with
  | [] => []
  | m => [[(out, bson.Double (sumField field m))]]
  end.

End mongo.

(* ================================================================== *)
(** ** Package database *)
(* ================================================================== *)

Module database.
Import mongo.

(** user.go: [User], [Subscription] and [Txn]. *)
Module User.
Record t := { Sub : string }.
(** No field is tagged [_id]: the driver adds an ObjectID on insert. *)
Definition marshal (u : t) : bson.marshalled :=
  (None, [("sub", bson.String (Sub u))]).
End User.

Module Subscription.
Record t := {
  ID : N;
  Sub : string;
  Tier : Z;
  From : Z;
  To : Z;
  Price : float
}.
Definition marshal (s : t) : bson.marshalled :=
  (Some (bson.ObjectID (ID s)),
   [("sub", bson.String (Sub s)); ("tier", bson.Int32 (Tier s));
    ("from", bson.DateTime (From s)); ("to", bson.DateTime (To s));
    ("price", bson.Double (Price s))]).
End Subscription.

Module Txn.
Record t := {
  ID : string;      (* bson:"_id" *)
  Sub : string;     (* bson:"sub" *)
  Amount : float    (* bson:"amount", credits *)
}.
Definition marshal (x : t) : bson.marshalled :=
  (Some (bson.idString (ID x)),
   [("sub", bson.String (Sub x)); ("amount", bson.Double (Amount x))]).
End Txn.

(** schema.go: the indexes that must exist per collection.  The map literal
    has entries for the subscriptions and the txns collections only; no
    index model calls [SetUnique]. *)
Definition schema (c : collection) : list IndexModel :=
  match c with
  | collSubscriptions =>
      [ {| Keys := [("sub", 1%Z)]; Name := "sub"; Unique := false |};
        {| Keys := [("from", 1%Z)]; Name := "from"; Unique := false |};
        {| Keys := [("to", 1%Z)]; Name := "to"; Unique := false |} ]
  | collTnxs =>
      [ {| Keys := [("price", 1%Z)]; Name := "price"; Unique := false |} ]
  | collUsers => []
  end.

(** database.go: [DB] wraps the database client.  [staticDB] is the state
    of the collections as the current unit of work sees it, with the indexes
    of [schema] in place ([newDB] runs [ensureDBSchema]).  The other fields
    are the environment of the driver: the ObjectID generator, the failures
    still to be injected (one entry consumed per call, none left means no
    failure), and the trace of calls made so far. *)
Record DB := {
  staticDB : Database;
  nextObjectID : N;
  faults : list (option Fault);
  ops : list Op
}.

Definition withDatabase (db : DB) (d : Database) : DB :=
  {| staticDB := d; nextObjectID := nextObjectID db;
     faults := faults db; ops := ops db |}.

(** One call to the server: it is traced and consumes one pending fault. *)
Definition call (op : Op) (db : DB) : DB * option Fault :=
  ({| staticDB := staticDB db; nextObjectID := nextObjectID db;
      faults := tl (faults db); ops := ops db ++ [op] |},
   match faults db with
   | f :: _ => f
   | [] => None
   end).

(** The driver completes a marshalled document with a fresh ObjectID when
    it has no [_id]. *)
Definition ensureID (m : bson.marshalled) (db : DB) : bson.doc * DB :=
  match fst m with
  | Some i => ({| bson._id := i; bson.fields := snd m |}, db)
  | None =>
      ({| bson._id := bson.ObjectID (nextObjectID db); bson.fields := snd m |},
       {| staticDB := staticDB db; nextObjectID := N.succ (nextObjectID db);
          faults := faults db; ops := ops db |})
  end.

(** [db.staticDB.Collection(c).InsertOne(ctx, m)]. *)
Definition InsertOne (c : collection) (m : bson.marshalled) (db : DB)
  : DB * result bson.ID :=
  let (d, db0) := ensureID m db in
  let (db1, f) := call (OpInsertOne c m) db0 in
  match f with
  | Some flt => (db1, Err (faultError flt))
  | None =>
      let docs := Collection (staticDB db1) c in
      if duplicateKey (schema c) docs d
      then (db1, Err (Mongo DuplicateKey))
      else (withDatabase db1 (setCollection (staticDB db1) c (docs ++ [d])),
            Ok (bson._id d))
  end.

(** [db.staticDB.Collection(c).Aggregate(ctx, mongo.Pipeline{match, group})]
    for the match-on-sub, group-and-sum pipeline; the result is the content
    of the cursor. *)
Definition Aggregate (c : collection) (sub out field : string) (db : DB)
  : DB * result (list bson.D) :=
  let (db1, f) := call (OpAggregate c) db in
  match f with
  | Some flt => (db1, Err (faultError flt))
  | None => (db1, Ok (matchGroupSum sub out field (Collection (staticDB db1) c)))
  end.

(** [c.Decode(&s)] into a struct with the single float64 field tagged
    [field]: a missing field leaves the zero value, a numeric one is
    converted, any other type is a decoding error. *)
Definition Decode (field : string) (d : bson.D) : result float :=
  match bson.lookup field d with
  | None => Ok PrimFloat.zero
  | Some v =>
      match bson.numeric v with
      | Some x => Ok x
      | None => Err (New "cannot decode into a float64")
      end
  end.

(** NewUser creates a new user with the given sub. *)
Definition NewUser (sub : string) (db : DB) : DB * result User.t :=
  let u := {| User.Sub := sub |} in
  let (db1, r) := InsertOne collUsers (User.marshal u) db in
  match r with
  | Err err => (db1, Err err)
  | Ok _ => (db1, Ok u)
  end.

(** NewTxn creates a new txn in the DB. *)
Definition NewTxn (id sub : string) (amount : float) (db : DB)
  : DB * result Txn.t :=
  let txn := {| Txn.ID := id; Txn.Sub := sub; Txn.Amount := amount |} in
  let (db1, r) := InsertOne collTnxs (Txn.marshal txn) db in
  match r with
  | Err err => (db1, Err err)
  | Ok _ => (db1, Ok txn)
  end.

(** CreditUser adds the given amount to the user's credit balance and marks
    the txnID as processed.  If the txn is already processed, this is a
    no-op. *)
Definition CreditUser (sub : string) (amount : float) (txnID : string)
    (db : DB) : DB * option error :=
  (* Make sure the user exists. *)
  let (db1, r) := NewUser sub db in
  let err := errOf r in
  match (if negb (IsDuplicateKeyError err) then err else None) with
  | Some e => (db1, Some (AddContext e "failed to create user"))
  | None =>
      (* Register txn. *)
      let (db2, r2) := NewTxn txnID sub amount db1 in
      let err := errOf r2 in
      if IsDuplicateKeyError err then
        (* This txn has already been processed, nothing to do. *)
        (db2, None)
      else
        match err with
        | Some e => (db2, Some (AddContext e "failed to register txn"))
        | None => (db2, None)
        end
  end.

(** userCredit returns the total amount of credits ever credited to this
    sub. *)
Definition userCredit (sub : string) (db : DB) : DB * result float :=
  let (db1, r) := Aggregate collTnxs sub "credit" "amount" db in
  match r with
  | Err err => (db1, Err err)
  | Ok c =>
      (* We only parse if we have a result. *)
      match c with
      | d :: _ =>
          match Decode "credit" d with
          | Err err => (db1, Err err)
          | Ok credit => (db1, Ok credit)
          end
      | [] => (db1, Ok PrimFloat.zero)
      end
  end.

(** userSpent returns the total amount of credits ever spent by this sub.
    As in the source, the aggregation runs on [collTnxs]. *)
Definition userSpent (sub : string) (db : DB) : DB * result float :=
  let (db1, r) := Aggregate collTnxs sub "spent" "price" db in
  match r with
  | Err err => (db1, Err err)
  | Ok c =>
      match c with
      | d :: _ =>
          match Decode "spent" d with
          | Err err => (db1, Err err)
          | Ok spent => (db1, Ok spent)
          end
      | [] => (db1, Ok PrimFloat.zero)
      end
  end.

(** UserBalance returns the current balance of credits for the given sub. *)
Definition UserBalance (sub : string) (db : DB) : DB * result float :=
  let (db1, r) := userCredit sub db in
  match r with
  | Err err =>
      (db1, Err (AddContext err "failed to calculate the total amount of credit"))
  | Ok credit =>
      let (db2, r2) := userSpent sub db1 in
      match r2 with
      | Err err =>
          (db2, Err (AddContext err "failed to calculate the total amount spent"))
      | Ok spent => (db2, Ok (PrimFloat.sub credit spent))
      end
  end.

(** A call that is traced but cannot be made to fail. *)
Definition trace (op : Op) (db : DB) : DB :=
  {| staticDB := staticDB db; nextObjectID := nextObjectID db;
     faults := faults db; ops := ops db ++ [op] |}.

(** A Mongo session: the state of the collections at its start, to which
    an abort returns, and whether a transaction is in progress. *)
Record Session := { snapshot : Database; inTransaction : bool }.

(** NewSession starts a new Mongo session
    ([db.staticDB.Client().StartSession()]). *)
Definition NewSession (db : DB) : DB * result Session :=
  let (db1, f) := call OpStartSession db in
  match f with
  | Some flt => (db1, Err (faultError flt))
  | None => (db1, Ok {| snapshot := staticDB db1; inTransaction := false |})
  end.

(** [sctx.StartTransaction()]. *)
Definition StartTransaction (sess : Session) (db : DB)
  : DB * result Session :=
  let (db1, f) := call OpStartTransaction db in
  match f with
  | Some flt => (db1, Err (faultError flt))
  | None => (db1, Ok {| snapshot := snapshot sess; inTransaction := true |})
  end.

(** Commit keeps the writes of the unit of work; abort returns the
    collections to the state at the start of the session.  A failing
    commit is not modelled. *)
Definition CommitTransaction (sess : Session) (db : DB) : Session * DB :=
  ({| snapshot := snapshot sess; inTransaction := false |}, trace OpCommit db).

Definition AbortTransaction (sess : Session) (db : DB) : Session * DB :=
  ({| snapshot := snapshot sess; inTransaction := false |},
   withDatabase (trace OpAbort db) (snapshot sess)).

(** [sess.EndSession(ctx)] aborts a transaction still in progress. *)
Definition EndSession (sess : Session) (db : DB) : DB :=
  if inTransaction sess then snd (AbortTransaction sess db) else db.

End database.

(* ================================================================== *)
(** ** Package api *)
(* ================================================================== *)

Module http.
Definition StatusOK : Z := 200.
Definition StatusNoContent : Z := 204.
Definition StatusBadRequest : Z := 400.
Definition StatusInternalServerError : Z := 500.

(** What [json.NewEncoder(w).Encode] is given by this package. *)
Inductive JSON :=
  | errorWrap (Message : error)     (* {"message": err.Error()} *)
  | HealthGET (DBAlive : bool).     (* {"dbAlive": b} *)

(** A response body: the encoded values written to it, in order. *)
Definition bytes := list JSON.

(** The methods of [http.ResponseWriter], as calls. *)
Inductive Call :=
  | HeaderSet (key val : string)    (* w.Header().Set(key, val) *)
  | WriteHeader (statusCode : Z)    (* w.WriteHeader(statusCode) *)
  | Write (b : bytes).              (* w.Write(b) *)

(** The interface [http.ResponseWriter]. *)
Class ResponseWriter (W : Type) := {
  do : Call -> W -> W
}.

(** The calls of a handler, made in order on its writer. *)
Definition serve {W} `{ResponseWriter W} (calls : list Call) (w : W) : W :=
  fold_left (fun w c => do c w) calls w.

(** The real response sink, by what it has been sent. *)
Definition Sink := list Call.

#[export] Instance Sink_ResponseWriter : ResponseWriter Sink :=
  {| do := fun c w => w ++ [c] |}.

(** The number of responses started on a sink: its status lines. *)
Definition responses (w : Sink) : nat :=
  List.length (filter (fun c => match c with WriteHeader _ => true | _ => false end) w).

(** An [*http.Request]: its body (nil, or what [io.ReadAll] makes of it) and
    whether its context is done when polled after the [n]-th run of the
    handler (counted from 0). *)
Record Request := {
  Body : option (result string);
  Done : nat -> bool
}.
End http.

Module api.
Import mongo database http.

(** DBTxnRetryCount specifies the number of times we should retry an API
    call in case we run into transaction errors. *)
Definition DBTxnRetryCount : Z := 5.

(** A handler ([httprouter.Handle]), given by the calls it makes on its
    response writer and by what it does to the database. *)
Definition Handle := Request -> DB -> list Call * DB.

(** WriteError an error to the API caller. *)
Definition WriteError (err : error) (code : Z) : list Call :=
  [ HeaderSet "Content-Type" "application/json; charset=utf-8";
    WriteHeader code;
    Write [errorWrap err] ].

(** Modelled from the spec: [api.WriteSuccess] is not under src/.  The
    payment notification answers success with an empty body and a success
    status, 204 in the README. *)
Definition WriteSuccess : list Call :=
  [ WriteHeader StatusNoContent ].

(** PaymentPOST describes a request which notifies Promoter of an incoming
    txn that credits the balance of a user with a given sub. *)
Module PaymentPOST.
Record t := {
  TxnID : string;
  Sub : string;
  Credits : float
}.
End PaymentPOST.

(** Validate ensures the payment information is valid and complete. *)
Definition Validate (p : PaymentPOST.t) : option error :=
  if PrimFloat.leb (PaymentPOST.Credits p) PrimFloat.zero then
    Some (New "non-positive credits amount")
  else if String.eqb (PaymentPOST.Sub p) "" then
    Some (New "missing or empty sub")
  else if String.eqb (PaymentPOST.TxnID p) "" then
    Some (New "missing or empty txn ID")
  else None.

Section Handlers.

(** [json.NewDecoder(r).Decode(&payment)] on the bytes of a body. *)
Variable jsonDecode : string -> result PaymentPOST.t.

(** paymentPOST registers a new payment.  With a nil [req.Body] the decoder
    reads from a nil reader and the handler panics before it has called its
    writer or the store: it makes no call.  The router never passes such a
    request ([net/http] gives a server request a body, and [WithDBSession]
    installs one); statements about the answers of [paymentPOST] assume a
    body. *)
Definition paymentPOST (req : Request) (db : DB) : list Call * DB :=
  match Body req with
  | None => ([], db)
  | Some read =>
      let decoded :=
        match read with
        | Ok b => jsonDecode b
        | Err err => Err err
        end in
      match decoded with
      | Err err =>
          (WriteError (AddContext err "failed to parse body") StatusBadRequest,
           db)
      | Ok payment =>
          match Validate payment with
          | Some err => (WriteError err StatusBadRequest, db)
          | None =>
              let (db1, err) :=
                CreditUser (PaymentPOST.Sub payment)
                           (PaymentPOST.Credits payment)
                           (PaymentPOST.TxnID payment) db in
              match err with
              | Some err => (WriteError err StatusInternalServerError, db1)
              | None => (WriteSuccess, db1)
              end
          end
      end
  end.

End Handlers.

(** Modelled from the spec: the Buffering Response Adapter ([MongoWriter],
    [NewMongoWriter] and its methods are not under src/).  It wraps the real
    response sink and the session of the attempt.  During a handler
    invocation it records a status code, a body payload and, on failure
    (a status outside 2xx), the error status and the error body; it never
    writes to the real sink. *)
Record MongoWriter := {
  sink : Sink;                        (* the wrapped real sink *)
  sctx : Session;                     (* the unit of work of the attempt *)
  header : list (string * string);
  recordedStatus : Z;
  recordedBody : bytes;
  errStatus : Z;
  errBuf : bytes
}.

Definition isSuccess (statusCode : Z) : bool :=
  (200 <=? statusCode)%Z && (statusCode <=? 299)%Z.

Definition MongoWriter_do (c : Call) (mw : MongoWriter) : MongoWriter :=
  match c with
  | HeaderSet k v =>
      {| sink := sink mw; sctx := sctx mw; header := header mw ++ [(k, v)];
         recordedStatus := recordedStatus mw; recordedBody := recordedBody mw;
         errStatus := errStatus mw; errBuf := errBuf mw |}
  | WriteHeader statusCode =>
      if isSuccess statusCode then
        {| sink := sink mw; sctx := sctx mw; header := header mw;
           recordedStatus := statusCode; recordedBody := recordedBody mw;
           errStatus := errStatus mw; errBuf := errBuf mw |}
      else
        {| sink := sink mw; sctx := sctx mw; header := header mw;
           recordedStatus := recordedStatus mw; recordedBody := recordedBody mw;
           errStatus := statusCode; errBuf := errBuf mw |}
  | Write b =>
      if (0 <? errStatus mw)%Z then
        {| sink := sink mw; sctx := sctx mw; header := header mw;
           recordedStatus := recordedStatus mw; recordedBody := recordedBody mw;
           errStatus := errStatus mw; errBuf := errBuf mw ++ b |}
      else
        {| sink := sink mw; sctx := sctx mw; header := header mw;
           recordedStatus := recordedStatus mw;
           recordedBody := recordedBody mw ++ b;
           errStatus := errStatus mw; errBuf := errBuf mw |}
  end.

#[export] Instance MongoWriter_ResponseWriter : ResponseWriter MongoWriter :=
  {| do := MongoWriter_do |}.

(** Modelled from the spec: [NewMongoWriter(w, sctx, logger)] begins the
    unit of work of the attempt; its only failure is that of starting the
    transaction. *)
Definition NewMongoWriter (w : Sink) (sess : Session) (db : DB)
  : DB * result MongoWriter :=
  let (db1, r) := StartTransaction sess db in
  match r with
  | Err err => (db1, Err err)
  | Ok sess1 =>
      (db1, Ok {| sink := w; sctx := sess1; header := [];
                  recordedStatus := 0; recordedBody := [];
                  errStatus := 0; errBuf := [] |})
  end.

Definition ErrorStatus (mw : MongoWriter) : Z := errStatus mw.
Definition ErrorBuffer (mw : MongoWriter) : bytes := errBuf mw.

(** Modelled from the spec: [isConflict()] inspects the recorded error to
    tell an optimistic-concurrency conflict from any other error: the
    recorded error body carries an error whose root cause is the store's
    write conflict. *)
Definition FailedWithWriteConflict (mw : MongoWriter) : bool :=
  (0 <? errStatus mw)%Z
  && existsb (fun j =>
       match j with
       | errorWrap e =>
           match rootCause e with
           | Some WriteConflict => true
           | _ => false
           end
       | _ => false
       end) (errBuf mw).

(** Modelled from the spec: step 4 of the retry algorithm ends the unit of
    work, committing if the handler did not record an error and aborting
    otherwise. *)
Definition endUnitOfWork (mw : MongoWriter) (db : DB) : MongoWriter * DB :=
  let (sess, db1) :=
    if (ErrorStatus mw =? 0)%Z then CommitTransaction (sctx mw) db
    else AbortTransaction (sctx mw) db in
  ({| sink := sink mw; sctx := sess; header := header mw;
      recordedStatus := recordedStatus mw; recordedBody := recordedBody mw;
      errStatus := errStatus mw; errBuf := errBuf mw |}, db1).

(** What one run of [handleFn] got to. *)
Inductive Attempt :=
  | SessionFailed (err : error)       (* NewSession failed *)
  | TransactionFailed (err : error)   (* NewMongoWriter failed *)
  | Ran (mw : MongoWriter).           (* h ran; the writer as it left it *)

(** The variables the closure [handleFn] works on: the real sink [w], the
    database, [numRetriesLeft], and (for the statements below) the attempts
    made so far. *)
Record State := {
  w : Sink;
  db : DB;
  numRetriesLeft : Z;
  attempts : list Attempt
}.

(** The number of times the handler was invoked. *)
Definition handlerRuns (st : State) : nat :=
  List.length
    (filter (fun a => match a with Ran _ => true | _ => false end)
            (attempts st)).

(** handleFn wraps a full execution of the handler, combined with a retry
    detection and counting. *)
Definition handleFn (h : Handle) (req : Request) (body : string) (st : State)
  : bool * State :=
  (* req.Body = io.NopCloser(bytes.NewReader(body)) *)
  let req := {| Body := Some (Ok body); Done := Done req |} in
  (* Create a new db session *)
  let (db1, r) := NewSession (db st) in
  match r with
  | Err err =>
      (false,
       {| w := serve (WriteError
                        (AddContext err "failed to start a new mongo session")
                        StatusInternalServerError) (w st);
          db := db1; numRetriesLeft := numRetriesLeft st;
          attempts := attempts st ++ [SessionFailed err] |})
  | Ok sess =>
      let (db2, r2) := NewMongoWriter (w st) sess db1 in
      match r2 with
      | Err err =>
          (false,
           {| w := serve (WriteError
                            (AddContext err "failed to start a new transaction")
                            StatusInternalServerError) (w st);
              db := EndSession sess db2; numRetriesLeft := numRetriesLeft st;
              attempts := attempts st ++ [TransactionFailed err] |})
      | Ok mw0 =>
          (* Forward the new response writer and request to the handler. *)
          let (calls, db3) := h req db2 in
          (* the unit of work ends with the handler (see [endUnitOfWork]) *)
          let (mw, db4) := endUnitOfWork (serve calls mw0) db3 in
          (* Close session after the handler is done. *)
          let db5 := EndSession (sctx mw) db4 in
          let att := attempts st ++ [Ran mw] in
          (* If the call failed with a non-WriteConflict error or we ran out
             of retries, we write the error and status to the response
             writer and finish the call. *)
          let finish :=
            (false,
             {| w := serve [WriteHeader (ErrorStatus mw);
                            Write (ErrorBuffer mw)] (sink mw);
                db := db5; numRetriesLeft := numRetriesLeft st;
                attempts := att |}) in
          if (ErrorStatus mw =? 0)%Z then
            (* If the call succeeded then we're done. *)
            (false,
             {| w := sink mw; db := db5; numRetriesLeft := numRetriesLeft st;
                attempts := att |})
          else if FailedWithWriteConflict mw && (numRetriesLeft st >? 0)%Z then
            if Done req (List.length (attempts st)) then
              (* the request context has expired: we won't retry anymore *)
              finish
            else
              (true,
               {| w := sink mw; db := db5;
                  numRetriesLeft := (numRetriesLeft st - 1)%Z;
                  attempts := att |})
          else finish
      end
  end.

(** [for handleFn() { }], with fuel for the iterations. *)
Fixpoint retryLoop (fuel : nat) (h : Handle) (req : Request) (body : string)
    (st : State) : option State :=
  match fuel with
  | O => None
  | S fuel' =>
      let (retry, st') := handleFn h req body st in
      if retry then retryLoop fuel' h req body st' else Some st'
  end.

(** WithDBSession injects a session context into the request context of the
    handler.  In case of a MongoDB WriteConflict error, the call is retried
    up to DBTxnRetryCount times or until the request context expires. *)
Definition WithDBSession (fuel : nat) (h : Handle) (w0 : Sink) (req : Request)
    (db0 : DB) : option State :=
  let st0 := {| w := w0; db := db0; numRetriesLeft := DBTxnRetryCount;
                attempts := [] |} in
  match Body req with
  | Some (Err err) =>
      Some {| w := serve (WriteError (AddContext err "failed to read body")
                                     StatusBadRequest) w0;
              db := db0; numRetriesLeft := DBTxnRetryCount; attempts := [] |}
  | Some (Ok body) => retryLoop fuel h req body st0
  | None => retryLoop fuel h req "" st0
  end.

End api.

(* ================================================================== *)
(** ** Vocabulary of the statements *)
(* ================================================================== *)

Import mongo database http api.

(** No failure is pending: every driver call to come reaches the store. *)
Definition noFaults (db : DB) : Prop :=
  Forall (fun f => f = None) (faults db).

(** The stored documents of a sub in a collection. *)
Definition recordsOf (sub : string) (docs : list bson.doc) : list bson.doc :=
  filter (matchesSub sub) docs.

(** The two values the aggregations of [userCredit] and [userSpent]
    compute: the sums of [amount] and of [price] over the documents of the
    sub in the txns collection, which is the collection both aggregate.
    These name what the code computes; the balance in the words of the
    specification, with its spend records, is [Spec.UserBalance] below. *)
Definition credited (sub : string) (d : Database) : float :=
  sumField "amount" (recordsOf sub (txns d)).

Definition spent (sub : string) (d : Database) : float :=
  sumField "price" (recordsOf sub (txns d)).

(** The subs of the documents of a collection. *)
Definition subOf (d : bson.doc) : option string :=
  match bson.lookup "sub" (bson.fields d) with
  | Some (bson.String s) => Some s
  | _ => None
  end.

(** [CreditUser] invoked [n] times in a row with the same arguments: the
    database after the last call and the errors returned, in order. *)
Fixpoint CreditUserTimes (n : nat) (sub : string) (amount : float)
    (txnID : string) (db : DB) : DB * list (option error) :=
  match n with
  | O => (db, [])
  | S n' =>
      let (db1, err) := CreditUser sub amount txnID db in
      let (db2, errs) := CreditUserTimes n' sub amount txnID db1 in
      (db2, err :: errs)
  end.

(** The empty database, before any request. *)
Definition emptyDatabase : Database :=
  {| subscriptions := []; txns := []; users := [] |}.

(** What database.go's [newDB] returns on a store without documents, in an
    environment that will fail the calls as [fs] says. *)
Definition newDB (fs : list (option Fault)) : DB :=
  {| staticDB := emptyDatabase; nextObjectID := 0; faults := fs; ops := [] |}.

(** The document [NewTxn] stores. *)
Definition txnDoc (id sub : string) (amount : float) : bson.doc :=
  {| bson._id := bson.idString id;
     bson.fields := [("sub", bson.String sub); ("amount", bson.Double amount)] |}.

(** The document [NewUser] stores when the generator is at [n]. *)
Definition userDoc (sub : string) (n : N) : bson.doc :=
  {| bson._id := bson.ObjectID n; bson.fields := [("sub", bson.String sub)] |}.

(** How an insert can end: it fails on the way, it is refused for its
    [_id], or the document is appended.  The collections change in the last
    case only. *)
Inductive InsertOutcome (c : collection) (m : bson.marshalled) (db : DB)
  : DB * result bson.ID -> Prop :=
  | insert_failed db' flt :
      staticDB db' = staticDB db ->
      InsertOutcome c m db (db', Err (faultError flt))
  | insert_duplicate db' :
      staticDB db' = staticDB db ->
      hasID (bson._id (fst (ensureID m db))) (Collection (staticDB db) c) = true ->
      InsertOutcome c m db (db', Err (Mongo DuplicateKey))
  | insert_done db' :
      staticDB db' =
        setCollection (staticDB db) c
          (Collection (staticDB db) c ++ [fst (ensureID m db)]) ->
      hasID (bson._id (fst (ensureID m db))) (Collection (staticDB db) c) = false ->
      InsertOutcome c m db (db', Ok (bson._id (fst (ensureID m db)))).

(** *** Invariants of the store *)

(** At most one document per [_id]. *)
Definition uniqueIDs (docs : list bson.doc) : Prop :=
  NoDup (map bson._id docs).

(** Every transaction record of a sub comes with a user record of it. *)
Definition referential (d : Database) : Prop :=
  forall t sub, In t (txns d) -> subOf t = Some sub ->
    exists u, In u (users d) /\ subOf u = Some sub.

(** The ObjectIDs in use are below the generator. *)
Definition freshIDs (docs : list bson.doc) (n : N) : Prop :=
  forall d m, In d docs -> bson._id d = bson.ObjectID m -> (m < n)%N.

(** No transaction record carries a price. *)
Definition priceless (docs : list bson.doc) : Prop :=
  forall d, In d docs -> bson.lookup "price" (bson.fields d) = None.

Definition good (d : Database) (n : N) : Prop :=
  uniqueIDs (txns d) /\ referential d /\ freshIDs (users d) n
  /\ subscriptions d = [] /\ priceless (txns d).

Definition Inv (db : DB) : Prop := good (staticDB db) (nextObjectID db).

(** The states of the database the service can be in: it starts empty; the
    environment may schedule failures of driver calls at any time; the
    ledger is written by [CreditUser], on its own or as the unit of work of
    a payment request under [WithDBSession]; balances are read. *)
Inductive reachable : DB -> Prop :=
  | reach_new fs : reachable (newDB fs)
  | reach_faults db fs :
      reachable db ->
      reachable {| staticDB := staticDB db; nextObjectID := nextObjectID db;
                   faults := fs; ops := ops db |}
  | reach_NewUser db sub :
      reachable db -> reachable (fst (NewUser sub db))
  | reach_CreditUser db sub amount txnID :
      reachable db -> reachable (fst (CreditUser sub amount txnID db))
  | reach_UserBalance db sub :
      reachable db -> reachable (fst (UserBalance sub db))
  | reach_payment db jsonDecode fuel w0 req st :
      reachable db ->
      WithDBSession fuel (paymentPOST jsonDecode) w0 req db = Some st ->
      reachable (api.db st).

(** Any sequence of inserts, by whichever callers and in whichever order
    the store receives them, with failures scheduled in between: what
    concurrent calls of [NewUser], [NewTxn] and [CreditUser] can amount to
    outside of a transaction. *)
Inductive inserts (db : DB) : DB -> Prop :=
  | inserts_none : inserts db db
  | inserts_InsertOne db' c m :
      inserts db db' -> inserts db (fst (InsertOne c m db'))
  | inserts_faults db' fs :
      inserts db db' ->
      inserts db {| staticDB := staticDB db'; nextObjectID := nextObjectID db';
                    faults := fs; ops := ops db' |}.

(** *** Attempts of the retry wrapper *)

(** The attempt recorded an error classified as a write conflict. *)
Definition conflictAttempt (a : Attempt) : bool :=
  match a with
  | Ran mw => negb (ErrorStatus mw =? 0)%Z && FailedWithWriteConflict mw
  | _ => false
  end.

(** The handler ran and recorded no error. *)
Definition succeeded (a : Attempt) : bool :=
  match a with
  | Ran mw => (ErrorStatus mw =? 0)%Z
  | _ => false
  end.

(** What [handleFn] itself sends to the real sink when an attempt ends the
    request: an error response for a session or a transaction that did not
    start, the recorded error status and error buffer for a handler that
    recorded an error, and nothing for a handler that recorded none. *)
Definition responseOf (a : Attempt) : list Call :=
  match a with
  | SessionFailed err =>
      WriteError (AddContext err "failed to start a new mongo session")
                 StatusInternalServerError
  | TransactionFailed err =>
      WriteError (AddContext err "failed to start a new transaction")
                 StatusInternalServerError
  | Ran mw =>
      if (ErrorStatus mw =? 0)%Z then []
      else [WriteHeader (ErrorStatus mw); Write (ErrorBuffer mw)]
  end.

(** The response of a whole request, from its attempts: the one of the last
    attempt, or the bad-request answer when the body could not be read and no
    attempt was made. *)
Definition terminalResponse (req : Request) (st : State) : list Call :=
  match Body req, rev (attempts st) with
  | Some (Err err), _ =>
      WriteError (AddContext err "failed to read body") StatusBadRequest
  | _, a :: _ => responseOf a
  | _, [] => []
  end.

(** The body of the request can be read. *)
Definition readable (req : Request) : Prop :=
  match Body req with
  | Some (Err _) => False
  | _ => True
  end.

(** How one run of [handleFn] on the state [st] can end. *)
Inductive HandleOutcome (h : Handle) (req : Request) (body : string)
    (st : State) : bool * State -> Prop :=
  | outcome_no_session err st' :
      attempts st' = attempts st ++ [SessionFailed err] ->
      w st' = w st ++ responseOf (SessionFailed err) ->
      numRetriesLeft st' = numRetriesLeft st ->
      staticDB (db st') = staticDB (db st) ->
      nextObjectID (db st') = nextObjectID (db st) ->
      HandleOutcome h req body st (false, st')
  | outcome_no_transaction err st' :
      attempts st' = attempts st ++ [TransactionFailed err] ->
      w st' = w st ++ responseOf (TransactionFailed err) ->
      numRetriesLeft st' = numRetriesLeft st ->
      staticDB (db st') = staticDB (db st) ->
      nextObjectID (db st') = nextObjectID (db st) ->
      HandleOutcome h req body st (false, st')
  | outcome_ran db2 calls dbh mw retry st' :
      (* the handler ran on the collections as they were *)
      staticDB db2 = staticDB (db st) ->
      nextObjectID db2 = nextObjectID (db st) ->
      h {| Body := Some (Ok body); Done := Done req |} db2 = (calls, dbh) ->
      attempts st' = attempts st ++ [Ran mw] ->
      (* the writer left the real sink alone *)
      sink mw = w st ->
      (* the unit of work was committed or rolled back *)
      staticDB (db st') =
        (if (ErrorStatus mw =? 0)%Z then staticDB dbh else staticDB (db st)) ->
      nextObjectID (db st') = nextObjectID dbh ->
      (* the decision *)
      (retry, w st', numRetriesLeft st') =
        (if (ErrorStatus mw =? 0)%Z then (false, w st, numRetriesLeft st)
         else if FailedWithWriteConflict mw && (numRetriesLeft st >? 0)%Z
                 && negb (Done req (List.length (attempts st)))
         then (true, w st, (numRetriesLeft st - 1)%Z)
         else (false,
               w st ++ [WriteHeader (ErrorStatus mw); Write (ErrorBuffer mw)],
               numRetriesLeft st)) ->
      HandleOutcome h req body st (retry, st').

(** *** Sample requests *)

(** The payment of Scenario A and a decoder yielding it, the payment of
    Scenario C with negative credits, and a request that never expires. *)
Definition paymentA : PaymentPOST.t :=
  {| PaymentPOST.TxnID := "tx1"; PaymentPOST.Sub := "userA";
     PaymentPOST.Credits := 10%float |}.

Definition paymentC : PaymentPOST.t :=
  {| PaymentPOST.TxnID := "tx2"; PaymentPOST.Sub := "userA";
     PaymentPOST.Credits := (-5)%float |}.

Definition decodeA (b : string) : result PaymentPOST.t := Ok paymentA.
Definition decodeC (b : string) : result PaymentPOST.t := Ok paymentC.

Definition request : Request :=
  {| Body := Some (Ok "{}"); Done := fun _ => false |}.

(** A store that answers the user insert of each of the next [n] attempts
    with a write conflict: an attempt starts a session, starts a
    transaction and then inserts. *)
Definition conflicts (n : nat) : list (option Fault) :=
  List.concat (repeat [None; None; Some FaultWriteConflict] n).

(** A store holding one payment of 10 credits for "userA" and one
    subscription of "userA" priced 5. *)
Definition subscriptionA : Subscription.t :=
  {| Subscription.ID := 7; Subscription.Sub := "userA";
     Subscription.Tier := 2; Subscription.From := 0; Subscription.To := 1000;
     Subscription.Price := 5%float |}.

Definition subscribedDB : DB :=
  {| staticDB :=
       {| subscriptions := [fst (ensureID (Subscription.marshal subscriptionA)
                                          (newDB []))];
          txns := [txnDoc "tx1" "userA" 10%float];
          users := [userDoc "userA" 0] |};
     nextObjectID := 8; faults := []; ops := [] |}.

(** The writer a payment attempt leaves behind when the user insert fails
    with the given driver error. *)
Definition failedWriter (e : MongoError) : MongoWriter :=
  {| sink := [];
     sctx := {| snapshot := emptyDatabase; inTransaction := false |};
     header := [("Content-Type", "application/json; charset=utf-8")];
     recordedStatus := 0; recordedBody := [];
     errStatus := 500;
     errBuf := [errorWrap (Context "failed to create user" (Mongo e))] |}.

(** The state in which [WithDBSession] starts its loop. *)
Definition initialState (w0 : Sink) (db0 : DB) : State :=
  {| w := w0; db := db0; numRetriesLeft := DBTxnRetryCount; attempts := [] |}.

(** *** The balance in the words of the specification *)



(** The specification's Balance Calculator, on the records themselves:
    credited is the sum of [amount] over the TransactionRecords of the sub,
    spent the sum of [price] over the SpendRecords of the sub (the records of
    the subscriptions collection, the only ones with a price), and the
    balance is credited - spent.  The sums are taken in the order of the
    records, from 0. *)
Module Spec.

Fixpoint creditedFrom (acc : float) (sub : string) (ts : list Txn.t) : float :=
  match ts with
  | [] => acc
  | t :: ts' =>
      creditedFrom (if String.eqb (Txn.Sub t) sub
                    then PrimFloat.add acc (Txn.Amount t) else acc) sub ts'
  end.

Fixpoint spentFrom (acc : float) (sub : string) (ss : list Subscription.t)
  : float :=
  match ss with
  | [] => acc
  | s :: ss' =>
      spentFrom (if String.eqb (Subscription.Sub s) sub
                 then PrimFloat.add acc (Subscription.Price s) else acc) sub ss'
  end.

Definition credited (sub : string) (ts : list Txn.t) : float :=
  creditedFrom PrimFloat.zero sub ts.

Definition spent (sub : string) (ss : list Subscription.t) : float :=
  spentFrom PrimFloat.zero sub ss.

Definition UserBalance (sub : string) (ts : list Txn.t)
    (ss : list Subscription.t) : float :=
  PrimFloat.sub (credited sub ts) (spent sub ss).

End Spec.

(* ================================================================== *)
(** ** Further code: several payments, the health endpoint, start-up *)
(* ================================================================== *)

(** [CreditUser] invoked for each payment [(txnID, amount)] of a list, in
    order, for one sub: the database after the last call and the errors
    returned. *)
Fixpoint CreditAll (sub : string) (payments : list (string * float)) (db : DB)
  : DB * list (option error) :=
  match payments with
  | [] => (db, [])
  | (txnID, amount) :: rest =>
      let (db1, err) := CreditUser sub amount txnID db in
      let (db2, errs) := CreditAll sub rest db1 in
      (db2, err :: errs)
  end.

(** The status codes a handler writes, in order. *)
Definition statuses (calls : list Call) : list Z :=
  flat_map (fun c => match c with WriteHeader code => [code] | _ => [] end)
           calls.

(** [db.staticDB.Client().Ping(db.staticCtx, nil)]: answered unless the
    environment makes it fail.  A ping is no call on a collection or a
    session and is left out of the trace. *)
Definition Ping (db : DB) : DB * option error :=
  ({| staticDB := staticDB db; nextObjectID := nextObjectID db;
      faults := tl (faults db); ops := ops db |},
   match faults db with
   | Some flt :: _ => Some (faultError flt)
   | _ => None
   end).

(** Health contains health information about the promoter.  If everything
    is ok all fields are nil. *)
Module Health.
Record t := { Database : option error }.
End Health.

(** Health returns some health information about the promoter. *)
Definition DBHealth (db : DB) : DB * Health.t :=
  let (db1, err) := Ping db in
  (db1, {| Health.Database := err |}).

(** WriteJSON writes the object to the ResponseWriter. *)
Definition WriteJSON (obj : JSON) : list Call :=
  [ HeaderSet "Content-Type" "application/json; charset=utf-8";
    WriteHeader StatusOK;
    Write [obj] ].

(** healthGET returns the status of the service. *)
Definition healthGET (req : Request) (db : DB) : list Call * DB :=
  let (db1, ph) := DBHealth db in
  (WriteJSON (HealthGET (match Health.Database ph with
                         | None => true
                         | Some _ => false
                         end)),
   db1).

(** *** main.go: the configuration *)

Module main.

Definition envAccountsHost : string := "ACCOUNTS_HOST".
Definition envAccountsPort : string := "ACCOUNTS_PORT".
Definition envMongoDBURI : string := "MONGODB_URI".
Definition envMongoDBUser : string := "MONGODB_USER".
Definition envMongoDBPassword : string := "MONGODB_PASSWORD".
Definition envLogLevel : string := "PROMOTER_LOG_LEVEL".
Definition envServerDomain : string := "SERVER_DOMAIN".

(** [logrus.Level] is a uint32; [logrus.InfoLevel] is 4. *)
Definition InfoLevel : N := 4.

(** config contains the configuration for the service which is parsed from
    the environment vars. *)
Record config := {
  LogLevel : N;
  Port : Z;
  DBURI : string;
  DBUser : string;
  DBPassword : string;
  ServerDomain : string;
  AccountsHost : string;
  AccountsPort : string
}.

Definition withLogLevel (c : config) (v : N) : config :=
  {| LogLevel := v; Port := Port c; DBURI := DBURI c; DBUser := DBUser c;
     DBPassword := DBPassword c; ServerDomain := ServerDomain c;
     AccountsHost := AccountsHost c; AccountsPort := AccountsPort c |}.
Definition withDBURI (c : config) (v : string) : config :=
  {| LogLevel := LogLevel c; Port := Port c; DBURI := v; DBUser := DBUser c;
     DBPassword := DBPassword c; ServerDomain := ServerDomain c;
     AccountsHost := AccountsHost c; AccountsPort := AccountsPort c |}.
Definition withDBUser (c : config) (v : string) : config :=
  {| LogLevel := LogLevel c; Port := Port c; DBURI := DBURI c; DBUser := v;
     DBPassword := DBPassword c; ServerDomain := ServerDomain c;
     AccountsHost := AccountsHost c; AccountsPort := AccountsPort c |}.
Definition withDBPassword (c : config) (v : string) : config :=
  {| LogLevel := LogLevel c; Port := Port c; DBURI := DBURI c;
     DBUser := DBUser c; DBPassword := v; ServerDomain := ServerDomain c;
     AccountsHost := AccountsHost c; AccountsPort := AccountsPort c |}.
Definition withServerDomain (c : config) (v : string) : config :=
  {| LogLevel := LogLevel c; Port := Port c; DBURI := DBURI c;
     DBUser := DBUser c; DBPassword := DBPassword c; ServerDomain := v;
     AccountsHost := AccountsHost c; AccountsPort := AccountsPort c |}.
Definition withAccountsHost (c : config) (v : string) : config :=
  {| LogLevel := LogLevel c; Port := Port c; DBURI := DBURI c;
     DBUser := DBUser c; DBPassword := DBPassword c;
     ServerDomain := ServerDomain c; AccountsHost := v;
     AccountsPort := AccountsPort c |}.
Definition withAccountsPort (c : config) (v : string) : config :=
  {| LogLevel := LogLevel c; Port := Port c; DBURI := DBURI c;
     DBUser := DBUser c; DBPassword := DBPassword c;
     ServerDomain := ServerDomain c; AccountsHost := AccountsHost c;
     AccountsPort := v |}.

(** [fmt.Errorf("%s wasn't specified", env)]. *)
Definition notSpecified (env : string) : error :=
  New (env ++ " wasn't specified").

Section Environment.

(** [os.LookupEnv]: the value of a variable, when it is set. *)
Variable LookupEnv : string -> option string.
(** [logrus.ParseLevel]. *)
Variable ParseLevel : string -> result N.

(** parseConfig parses a Config struct from the environment. *)
Definition parseConfig : result config :=
  (* Create config with default vars. *)
  let cfg :=
    {| LogLevel := InfoLevel; Port := 0; DBURI := ""; DBUser := "";
       DBPassword := ""; ServerDomain := "";
       AccountsHost := "10.10.10.70"; AccountsPort := "3000" |} in
  (* Parse custom vars from environment. *)
  let level :=
    match LookupEnv envLogLevel with
    | Some logLevelStr =>
        match ParseLevel logLevelStr with
        | Ok l => Ok (withLogLevel cfg l)
        | Err err => Err (AddContext err "failed to parse log level")
        end
    | None => Ok cfg
    end in
  match level with
  | Err err => Err err
  | Ok cfg =>
  match LookupEnv envMongoDBURI with
  | None => Err (notSpecified envMongoDBURI)
  | Some v => let cfg := withDBURI cfg v in
  match LookupEnv envMongoDBUser with
  | None => Err (notSpecified envMongoDBUser)
  | Some v => let cfg := withDBUser cfg v in
  match LookupEnv envMongoDBPassword with
  | None => Err (notSpecified envMongoDBPassword)
  | Some v => let cfg := withDBPassword cfg v in
  match LookupEnv envServerDomain with
  | None => Err (notSpecified envServerDomain)
  | Some v => let cfg := withServerDomain cfg v in
  match LookupEnv envAccountsHost with
  | None => Err (notSpecified envAccountsHost)
  | Some v => let cfg := withAccountsHost cfg v in
  match LookupEnv envAccountsPort with
  | None => Err (notSpecified envAccountsPort)
  | Some v => Ok (withAccountsPort cfg v)
  end end end end end end end.

End Environment.

(** The variables [parseConfig] requires, in the order it reads them. *)
Definition required : list string :=
  [envMongoDBURI; envMongoDBUser; envMongoDBPassword; envServerDomain;
   envAccountsHost; envAccountsPort].

End main.

(** *** database.go: ensuring the schema *)

Module dbschema.

(** The indexes of the three collections on the server, and the failures
    the environment will inject into the calls to come. *)
Record Server := {
  ixSubscriptions : list IndexModel;
  ixTnxs : list IndexModel;
  ixUsers : list IndexModel;
  pending : list (option Fault)
}.

Definition Indexes (s : Server) (c : collection) : list IndexModel :=
  match c with
  | collSubscriptions => ixSubscriptions s
  | collTnxs => ixTnxs s
  | collUsers => ixUsers s
  end.

Definition setIndexes (s : Server) (c : collection) (l : list IndexModel)
    (p : list (option Fault)) : Server :=
  match c with
  | collSubscriptions =>
      {| ixSubscriptions := l; ixTnxs := ixTnxs s; ixUsers := ixUsers s;
         pending := p |}
  | collTnxs =>
      {| ixSubscriptions := ixSubscriptions s; ixTnxs := l;
         ixUsers := ixUsers s; pending := p |}
  | collUsers =>
      {| ixSubscriptions := ixSubscriptions s; ixTnxs := ixTnxs s;
         ixUsers := l; pending := p |}
  end.

Fixpoint keys_eqb (a b : list (string * Z)) : bool :=
  match a, b with
  | [], [] => true
  | (k, d) :: a', (k', d') :: b' =>
      String.eqb k k' && Z.eqb d d' && keys_eqb a' b'
  | _, _ => false
  end.

Definition IndexModel_eqb (a b : IndexModel) : bool :=
  keys_eqb (Keys a) (Keys b) && String.eqb (Name a) (Name b)
  && Bool.eqb (Unique a) (Unique b).

(** An existing index [i] stands in the way of [m]: it is another index
    under the same name or on the same keys. *)
Definition clash (m i : IndexModel) : bool :=
  negb (IndexModel_eqb m i)
  && (String.eqb (Name i) (Name m) || keys_eqb (Keys i) (Keys m)).

(** The server's createIndexes on the indexes [ixs] of a collection: an
    index that exists as asked for is left alone, one that clashes with an
    existing index fails the whole command, any other is added. *)
Fixpoint createAll (ixs models : list IndexModel) : option (list IndexModel) :=
  match models with
  | [] => Some ixs
  | m :: rest =>
      if existsb (IndexModel_eqb m) ixs then createAll ixs rest
      else if existsb (clash m) ixs then None
      else createAll (ixs ++ [m]) rest
  end.

(** [coll.Indexes().CreateMany(ctx, models)]: the names of the indexes. *)
Definition CreateMany (c : collection) (models : list IndexModel)
    (s : Server) : Server * result (list string) :=
  match pending s with
  | Some flt :: p => (setIndexes s c (Indexes s c) p, Err (faultError flt))
  | _ =>
      match createAll (Indexes s c) models with
      | None =>
          (setIndexes s c (Indexes s c) (tl (pending s)),
           Err (Mongo (CommandError "IndexOptionsConflict")))
      | Some ixs =>
          (setIndexes s c ixs (tl (pending s)), Ok (map Name models))
      end
  end.

(** ensureCollection gets the given collection from the database and
    creates it if it doesn't exist.  [db.Collection] returns a handle for
    every name, never nil, so the handle is returned as it is. *)
Definition ensureCollection (collName : collection) (s : Server)
  : Server * result collection :=
  (s, Ok collName).

(** The keys of the map literal of [schema]. *)
Definition schemaKeys : list collection := [collSubscriptions; collTnxs].

(** ensureDBSchema checks that we have all collections and indexes we need
    and creates them if needed.  [order] is the order in which [range]
    visits the keys of the map [schema()], which Go leaves open. *)
Fixpoint ensureDBSchema (order : list collection) (s : Server)
  : Server * option error :=
  match order with
  | [] => (s, None)
  | collName :: rest =>
      let (s1, r) := ensureCollection collName s in
      match r with
      | Err err => (s1, Some err)
      | Ok coll =>
          let (s2, r2) := CreateMany coll (schema collName) s1 in
          match r2 with
          | Err err => (s2, Some (AddContext err "failed to create indexes"))
          | Ok names => ensureDBSchema rest s2
          end
      end
  end.

(** No index of the schema clashes with an index of [ixs]. *)
Definition admits (ixs : list IndexModel) (c : collection) : bool :=
  forallb (fun m => negb (existsb (clash m) ixs)) (schema c).

End dbschema.

(* ================================================================== *)
(** ** The driver calls *)
(* ================================================================== *)

Section DriverCalls.

Lemma ID_eqb_eq (a b : bson.ID) : bson.ID_eqb a b = true <-> a = b.
Proof.
  destruct a as [s|n], b as [t|m]; simpl; split; intro H;
    try discriminate; try congruence.
  - apply String.eqb_eq in H. now subst.
  - injection H as ->. apply String.eqb_refl.
  - apply N.eqb_eq in H. now subst.
  - injection H as ->. apply N.eqb_refl.
Qed.

Lemma hasID_In (i : bson.ID) (docs : list bson.doc) :
  hasID i docs = true <-> In i (map bson._id docs).
Proof.
  unfold hasID. rewrite existsb_exists, in_map_iff. split.
  - intros [d [Hd He]]. apply ID_eqb_eq in He. now exists d.
  - intros [d [He Hd]]. exists d. split; [assumption|]. now apply ID_eqb_eq.
Qed.

Lemma hasID_false (i : bson.ID) (docs : list bson.doc) :
  hasID i docs = false <-> ~ In i (map bson._id docs).
Proof.
  rewrite <- hasID_In. destruct (hasID i docs); split; congruence.
Qed.

(** No index of the schema is unique: only [_id] can clash. *)
Lemma duplicateKey_schema (c : collection) docs d :
  duplicateKey (schema c) docs d = hasID (bson._id d) docs.
Proof.
  unfold duplicateKey. destruct c; simpl; now rewrite orb_false_r.
Qed.

Lemma call_fst (op : Op) (db : DB) :
  staticDB (fst (call op db)) = staticDB db
  /\ nextObjectID (fst (call op db)) = nextObjectID db
  /\ faults (fst (call op db)) = tl (faults db)
  /\ ops (fst (call op db)) = ops db ++ [op].
Proof. now unfold call. Qed.

Lemma call_noFaults (op : Op) (db : DB) :
  noFaults db -> snd (call op db) = None /\ noFaults (fst (call op db)).
Proof.
  unfold noFaults, call. simpl. intros H. destruct (faults db) as [|f fs].
  - split; [reflexivity | constructor].
  - inversion H; subst. split; [reflexivity | assumption].
Qed.

(** The outcome of an insert the store receives. *)
Lemma InsertOne_received (c : collection) (m : bson.marshalled) (db : DB) :
  snd (call (OpInsertOne c m) (snd (ensureID m db))) = None ->
  let d := fst (ensureID m db) in
  let db1 := fst (call (OpInsertOne c m) (snd (ensureID m db))) in
  InsertOne c m db =
    if hasID (bson._id d) (Collection (staticDB db1) c)
    then (db1, Err (Mongo DuplicateKey))
    else (withDatabase db1
            (setCollection (staticDB db1) c (Collection (staticDB db1) c ++ [d])),
          Ok (bson._id d)).
Proof.
  intros Hf d db1. subst d db1. unfold InsertOne.
  destruct (ensureID m db) as [d' db0] eqn:E. simpl in *.
  destruct (call (OpInsertOne c m) db0) as [db1' f] eqn:E1. simpl in *.
  rewrite Hf. now rewrite duplicateKey_schema.
Qed.

(** The outcome of an insert the environment makes fail. *)
Lemma InsertOne_fault (c : collection) (m : bson.marshalled) (db : DB) flt :
  snd (call (OpInsertOne c m) (snd (ensureID m db))) = Some flt ->
  InsertOne c m db =
    (fst (call (OpInsertOne c m) (snd (ensureID m db))), Err (faultError flt)).
Proof.
  intros Hf. unfold InsertOne.
  destruct (ensureID m db) as [d' db0] eqn:E. simpl in *.
  destruct (call (OpInsertOne c m) db0) as [db1' f] eqn:E1. simpl in *.
  now rewrite Hf.
Qed.

Lemma ensureID_static (m : bson.marshalled) (db : DB) :
  staticDB (snd (ensureID m db)) = staticDB db
  /\ faults (snd (ensureID m db)) = faults db
  /\ (nextObjectID db <= nextObjectID (snd (ensureID m db)))%N.
Proof.
  unfold ensureID. destruct (fst m); simpl; repeat split; lia.
Qed.

Lemma ensureID_noFaults (m : bson.marshalled) (db : DB) :
  noFaults db -> noFaults (snd (ensureID m db)).
Proof.
  unfold noFaults. now destruct (ensureID_static m db) as [_ [-> _]].
Qed.

End DriverCalls.

(* ================================================================== *)
(** ** The ledger operations *)
(* ================================================================== *)

Section Ledger.

Lemma InsertOne_outcome (c : collection) (m : bson.marshalled) (db : DB) :
  InsertOutcome c m db (InsertOne c m db).
Proof.
  destruct (ensureID_static m db) as [Hs _].
  destruct (call_fst (OpInsertOne c m) (snd (ensureID m db))) as [Hc _].
  destruct (snd (call (OpInsertOne c m) (snd (ensureID m db)))) as [flt|] eqn:Hf.
  - rewrite (InsertOne_fault _ _ _ _ Hf). constructor. congruence.
  - rewrite (InsertOne_received _ _ _ Hf). cbv zeta. rewrite Hc, Hs.
    destruct (hasID _ _) eqn:Hd.
    + now constructor.
    + now constructor.
Qed.

Lemma InsertOne_env (c : collection) (m : bson.marshalled) (db : DB) :
  nextObjectID (fst (InsertOne c m db)) = nextObjectID (snd (ensureID m db))
  /\ faults (fst (InsertOne c m db)) = tl (faults db)
  /\ ops (fst (InsertOne c m db)) = ops db ++ [OpInsertOne c m].
Proof.
  unfold InsertOne.
  destruct (ensureID m db) as [d db0] eqn:E.
  assert (Hf : faults db0 = faults db /\ ops db0 = ops db).
  { unfold ensureID in E. destruct (fst m); injection E as _ <-; now simpl. }
  unfold call. cbn [fst snd]. destruct Hf as [-> ->].
  destruct (faults db) as [|[flt|] fs]; cbn [tl];
    try destruct (duplicateKey _ _ _); now simpl.
Qed.

(** With no failure pending, an insert is decided by the [_id] alone. *)
Lemma InsertOne_noFaults (c : collection) (m : bson.marshalled) (db : DB) :
  noFaults db ->
  noFaults (fst (InsertOne c m db))
  /\ (snd (InsertOne c m db) = Err (Mongo DuplicateKey)
        /\ staticDB (fst (InsertOne c m db)) = staticDB db
        /\ hasID (bson._id (fst (ensureID m db)))
             (Collection (staticDB db) c) = true
      \/ snd (InsertOne c m db) = Ok (bson._id (fst (ensureID m db)))
        /\ staticDB (fst (InsertOne c m db)) =
             setCollection (staticDB db) c
               (Collection (staticDB db) c ++ [fst (ensureID m db)])
        /\ hasID (bson._id (fst (ensureID m db)))
             (Collection (staticDB db) c) = false).
Proof.
  intros Hn.
  destruct (call_noFaults (OpInsertOne c m) _ (ensureID_noFaults m db Hn))
    as [Hf Hn'].
  destruct (ensureID_static m db) as [Hs _].
  destruct (call_fst (OpInsertOne c m) (snd (ensureID m db))) as [Hc _].
  rewrite (InsertOne_received _ _ _ Hf). cbv zeta. rewrite Hc, Hs.
  destruct (hasID _ _) eqn:Hd; cbn [fst snd].
  - split; [assumption | left]. now rewrite Hc, Hs.
  - split; [exact Hn' | right]. repeat split.
Qed.

Lemma faultError_not_duplicate (flt : Fault) :
  IsDuplicateKeyError (Some (faultError flt)) = false.
Proof. now destruct flt. Qed.

(** [NewUser] and [NewTxn] return the database and the error of their
    insert. *)
Lemma NewUser_insert (sub : string) (db : DB) :
  fst (NewUser sub db)
    = fst (InsertOne collUsers (User.marshal {| User.Sub := sub |}) db)
  /\ errOf (snd (NewUser sub db))
    = errOf (snd (InsertOne collUsers (User.marshal {| User.Sub := sub |}) db)).
Proof.
  unfold NewUser. destruct (InsertOne _ _ db) as [db1 [i|e]]; now simpl.
Qed.

Lemma NewTxn_insert (id sub : string) (amount : float) (db : DB) :
  let txn := {| Txn.ID := id; Txn.Sub := sub; Txn.Amount := amount |} in
  fst (NewTxn id sub amount db) = fst (InsertOne collTnxs (Txn.marshal txn) db)
  /\ errOf (snd (NewTxn id sub amount db))
    = errOf (snd (InsertOne collTnxs (Txn.marshal txn) db)).
Proof.
  unfold NewTxn. destruct (InsertOne _ _ db) as [db1 [i|e]]; now simpl.
Qed.

End Ledger.

Section Credit.

Variables (sub txnID : string) (amount : float).

Lemma NewUser_noFaults (db : DB) :
  noFaults db ->
  noFaults (fst (NewUser sub db))
  /\ txns (staticDB (fst (NewUser sub db))) = txns (staticDB db)
  /\ subscriptions (staticDB (fst (NewUser sub db))) = subscriptions (staticDB db)
  /\ (errOf (snd (NewUser sub db)) = None
      \/ errOf (snd (NewUser sub db)) = Some (Mongo DuplicateKey)).
Proof.
  intros Hn. destruct (NewUser_insert sub db) as [-> ->].
  destruct (InsertOne_noFaults collUsers (User.marshal {| User.Sub := sub |}) db Hn)
    as [Hn' [[-> [-> _]] | [-> [-> _]]]]; simpl; auto.
Qed.

Lemma NewTxn_noFaults_fresh (db : DB) :
  noFaults db ->
  hasID (bson.idString txnID) (txns (staticDB db)) = false ->
  noFaults (fst (NewTxn txnID sub amount db))
  /\ errOf (snd (NewTxn txnID sub amount db)) = None
  /\ staticDB (fst (NewTxn txnID sub amount db)) =
       setCollection (staticDB db) collTnxs
         (txns (staticDB db) ++ [txnDoc txnID sub amount]).
Proof.
  intros Hn Hfresh. destruct (NewTxn_insert txnID sub amount db) as [-> ->].
  destruct (InsertOne_noFaults collTnxs
              (Txn.marshal {| Txn.ID := txnID; Txn.Sub := sub; Txn.Amount := amount |})
              db Hn) as [Hn' [[_ [_ Hd]] | [-> [-> _]]]].
  - simpl in Hd. congruence.
  - now simpl.
Qed.

Lemma NewTxn_noFaults_recorded (db : DB) :
  noFaults db ->
  hasID (bson.idString txnID) (txns (staticDB db)) = true ->
  noFaults (fst (NewTxn txnID sub amount db))
  /\ snd (NewTxn txnID sub amount db) = Err (Mongo DuplicateKey)
  /\ staticDB (fst (NewTxn txnID sub amount db)) = staticDB db.
Proof.
  intros Hn Hrec.
  assert (H := InsertOne_noFaults collTnxs
              (Txn.marshal {| Txn.ID := txnID; Txn.Sub := sub; Txn.Amount := amount |})
              db Hn).
  unfold NewTxn.
  destruct (InsertOne collTnxs _ db) as [db1 r]; cbn [fst snd] in *.
  destruct H as [Hn' [[-> [Hs _]] | [_ [_ Hd]]]].
  - now simpl.
  - simpl in Hd. congruence.
Qed.

(** With no failure pending, [CreditUser] goes through both inserts and
    returns nil. *)
Lemma CreditUser_noFaults (db : DB) :
  noFaults db ->
  CreditUser sub amount txnID db =
    (fst (NewTxn txnID sub amount (fst (NewUser sub db))), None)
  /\ noFaults (fst (CreditUser sub amount txnID db)).
Proof.
  intros Hn. destruct (NewUser_noFaults db Hn) as [Hn1 [Ht [_ He]]].
  unfold CreditUser.
  destruct (NewUser sub db) as [db1 r] eqn:E1. cbn [fst snd] in *.
  assert (Hgo : (if negb (IsDuplicateKeyError (errOf r)) then errOf r else None)
                = None).
  { destruct He as [-> | ->]; reflexivity. }
  cbv zeta. rewrite Hgo.
  destruct (hasID (bson.idString txnID) (txns (staticDB db1))) eqn:Hid.
  - destruct (NewTxn_noFaults_recorded db1 Hn1 Hid) as [Hn2 [Hr _]].
    destruct (NewTxn txnID sub amount db1) as [db2 r2]. cbn [fst snd] in *.
    subst r2. now simpl.
  - destruct (NewTxn_noFaults_fresh db1 Hn1 Hid) as [Hn2 [Hr _]].
    destruct (NewTxn txnID sub amount db1) as [db2 r2]. cbn [fst snd] in *.
    rewrite Hr. now simpl.
Qed.

(** A replay: the id is recorded already. *)
Lemma CreditUser_replay (db : DB) :
  noFaults db ->
  hasID (bson.idString txnID) (txns (staticDB db)) = true ->
  let dbu := fst (NewUser sub db) in
  snd (NewTxn txnID sub amount dbu) = Err (Mongo DuplicateKey)
  /\ CreditUser sub amount txnID db = (fst (NewTxn txnID sub amount dbu), None)
  /\ staticDB (fst (NewTxn txnID sub amount dbu)) = staticDB dbu
  /\ txns (staticDB (fst (CreditUser sub amount txnID db))) = txns (staticDB db)
  /\ noFaults (fst (CreditUser sub amount txnID db)).
Proof.
  intros Hn Hrec dbu. subst dbu.
  destruct (NewUser_noFaults db Hn) as [Hn1 [Ht _]].
  destruct (CreditUser_noFaults db Hn) as [Hc Hn2].
  rewrite <- Ht in Hrec.
  destruct (NewTxn_noFaults_recorded _ Hn1 Hrec) as [_ [Hr Hs]].
  repeat split; try assumption.
  rewrite Hc. cbn [fst]. rewrite Hs. rewrite Ht in *. reflexivity.
Qed.

(** The first call for an id. *)
Lemma CreditUser_first (db : DB) :
  noFaults db ->
  hasID (bson.idString txnID) (txns (staticDB db)) = false ->
  snd (CreditUser sub amount txnID db) = None
  /\ txns (staticDB (fst (CreditUser sub amount txnID db)))
     = txns (staticDB db) ++ [txnDoc txnID sub amount]
  /\ noFaults (fst (CreditUser sub amount txnID db)).
Proof.
  intros Hn Hfresh.
  destruct (NewUser_noFaults db Hn) as [Hn1 [Ht _]].
  destruct (CreditUser_noFaults db Hn) as [Hc Hn2].
  rewrite <- Ht in Hfresh.
  destruct (NewTxn_noFaults_fresh _ Hn1 Hfresh) as [_ [_ Hs]].
  rewrite Hc in *. cbn [fst snd] in *. rewrite Hs. simpl.
  repeat split; try assumption. now rewrite Ht.
Qed.

Lemma hasID_txnDoc (docs : list bson.doc) :
  hasID (bson.idString txnID) (docs ++ [txnDoc txnID sub amount]) = true.
Proof.
  apply hasID_In. rewrite map_app, in_app_iff. right. now left.
Qed.

(** Replays leave the transaction records alone and return nil. *)
Lemma CreditUserTimes_replay (n : nat) (db : DB) :
  noFaults db ->
  hasID (bson.idString txnID) (txns (staticDB db)) = true ->
  noFaults (fst (CreditUserTimes n sub amount txnID db))
  /\ txns (staticDB (fst (CreditUserTimes n sub amount txnID db)))
     = txns (staticDB db)
  /\ Forall (fun e => e = None) (snd (CreditUserTimes n sub amount txnID db)).
Proof.
  revert db. induction n as [|n IH]; intros db Hn Hrec.
  - simpl. repeat split; auto.
  - destruct (CreditUser_replay db Hn Hrec) as [_ [Hc [_ [Ht Hn1]]]].
    simpl. destruct (CreditUser sub amount txnID db) as [db1 e] eqn:E.
    cbn [fst snd] in *. injection Hc as _ ->.
    rewrite <- Ht in Hrec. destruct (IH db1 Hn1 Hrec) as [H1 [H2 H3]].
    destruct (CreditUserTimes n sub amount txnID db1) as [db2 errs].
    cbn [fst snd] in *. repeat split; [assumption | congruence | now constructor].
Qed.

(** With no failure pending, [CreditUser] sends the user insert, then the
    transaction-record insert, and nothing else. *)
Lemma CreditUser_ops (db : DB) :
  noFaults db ->
  ops (fst (CreditUser sub amount txnID db)) =
    ops db ++ [OpInsertOne collUsers (User.marshal {| User.Sub := sub |});
               OpInsertOne collTnxs
                 (Txn.marshal {| Txn.ID := txnID; Txn.Sub := sub;
                                 Txn.Amount := amount |})].
Proof.
  intros Hn. destruct (CreditUser_noFaults db Hn) as [-> _]. cbn [fst].
  destruct (NewTxn_insert txnID sub amount (fst (NewUser sub db))) as [-> _].
  destruct (InsertOne_env collTnxs
    (Txn.marshal {| Txn.ID := txnID; Txn.Sub := sub; Txn.Amount := amount |})
    (fst (NewUser sub db))) as [_ [_ ->]].
  destruct (NewUser_insert sub db) as [-> _].
  destruct (InsertOne_env collUsers (User.marshal {| User.Sub := sub |}) db)
    as [_ [_ ->]].
  now rewrite <- app_assoc.
Qed.

End Credit.

(* ================================================================== *)
(** ** The balance *)
(* ================================================================== *)

Section Balance.

Variable sub : string.

Lemma sumField_snoc (field : string) (docs : list bson.doc) (d : bson.doc) :
  sumField field (docs ++ [d]) =
    match bson.lookup field (bson.fields d) with
    | Some v => match bson.numeric v with
                | Some x => PrimFloat.add (sumField field docs) x
                | None => sumField field docs
                end
    | None => sumField field docs
    end.
Proof. unfold sumField. now rewrite fold_left_app. Qed.

Lemma recordsOf_snoc_txnDoc (docs : list bson.doc) txnID amount :
  recordsOf sub (docs ++ [txnDoc txnID sub amount])
  = recordsOf sub docs ++ [txnDoc txnID sub amount].
Proof.
  unfold recordsOf. rewrite filter_app. simpl.
  unfold matchesSub. simpl. now rewrite String.eqb_refl.
Qed.

(** The cursor of the aggregation decodes to the sum over the records of
    the sub, and to the zero value when it is empty. *)
Lemma decode_matchGroupSum (out field : string) (docs : list bson.doc) :
  match matchGroupSum sub out field docs with
  | d :: _ => Decode out d
  | [] => Ok PrimFloat.zero
  end = Ok (sumField field (recordsOf sub docs)).
Proof.
  unfold matchGroupSum, recordsOf.
  destruct (filter (matchesSub sub) docs) as [|d l]; [reflexivity|].
  unfold Decode. simpl. now rewrite String.eqb_refl.
Qed.

Lemma userCredit_noFaults (db : DB) :
  noFaults db ->
  userCredit sub db =
    (fst (call (OpAggregate collTnxs) db), Ok (credited sub (staticDB db))).
Proof.
  intros Hn. unfold userCredit, Aggregate.
  destruct (call_noFaults (OpAggregate collTnxs) db Hn) as [Hf _].
  destruct (call (OpAggregate collTnxs) db) as [db1 f] eqn:E.
  cbn [fst snd] in *. subst f.
  assert (Hs : staticDB db1 = staticDB db).
  { unfold call in E. now injection E as <- . }
  rewrite Hs. simpl Collection.
  pose proof (decode_matchGroupSum "credit" "amount" (txns (staticDB db))) as Hd.
  unfold credited.
  destruct (matchGroupSum sub "credit" "amount" (txns (staticDB db))) as [|d l].
  - now injection Hd as <-.
  - now rewrite Hd.
Qed.

Lemma userSpent_noFaults (db : DB) :
  noFaults db ->
  userSpent sub db =
    (fst (call (OpAggregate collTnxs) db), Ok (spent sub (staticDB db))).
Proof.
  intros Hn. unfold userSpent, Aggregate.
  destruct (call_noFaults (OpAggregate collTnxs) db Hn) as [Hf _].
  destruct (call (OpAggregate collTnxs) db) as [db1 f] eqn:E.
  cbn [fst snd] in *. subst f.
  assert (Hs : staticDB db1 = staticDB db).
  { unfold call in E. now injection E as <- . }
  rewrite Hs. simpl Collection.
  pose proof (decode_matchGroupSum "spent" "price" (txns (staticDB db))) as Hd.
  unfold spent.
  destruct (matchGroupSum sub "spent" "price" (txns (staticDB db))) as [|d l].
  - now injection Hd as <-.
  - now rewrite Hd.
Qed.

(** [UserBalance] with both aggregations answered: the difference of the
    two sums, after two reads and no write. *)
Lemma UserBalance_noFaults (db : DB) :
  noFaults db ->
  UserBalance sub db =
    (fst (call (OpAggregate collTnxs) (fst (call (OpAggregate collTnxs) db))),
     Ok (PrimFloat.sub (credited sub (staticDB db)) (spent sub (staticDB db)))).
Proof.
  intros Hn. unfold UserBalance. rewrite (userCredit_noFaults db Hn).
  destruct (call_noFaults (OpAggregate collTnxs) db Hn) as [_ Hn1].
  rewrite (userSpent_noFaults _ Hn1).
  now destruct (call_fst (OpAggregate collTnxs) db) as [-> _].
Qed.

(** The balance depends on the transaction records only. *)
Lemma UserBalance_txns (db db' : DB) :
  noFaults db -> noFaults db' ->
  txns (staticDB db) = txns (staticDB db') ->
  snd (UserBalance sub db) = snd (UserBalance sub db').
Proof.
  intros Hn Hn' Ht.
  rewrite (UserBalance_noFaults db Hn), (UserBalance_noFaults db' Hn').
  unfold credited, spent. now rewrite Ht.
Qed.

Lemma credited_snoc (d : Database) (docs : list bson.doc) txnID amount :
  txns d = docs ->
  sumField "amount" (recordsOf sub (docs ++ [txnDoc txnID sub amount]))
  = PrimFloat.add (credited sub d) amount
  /\ sumField "price" (recordsOf sub (docs ++ [txnDoc txnID sub amount]))
  = spent sub d.
Proof.
  intros <-. rewrite recordsOf_snoc_txnDoc, !sumField_snoc. now simpl.
Qed.

Lemma sumField_absent (field : string) (docs : list bson.doc) :
  (forall d, In d docs -> bson.lookup field (bson.fields d) = None) ->
  sumField field docs = PrimFloat.zero.
Proof.
  unfold sumField. generalize PrimFloat.zero.
  induction docs as [|d l IH]; intros acc H; simpl; [reflexivity|].
  rewrite (H d (or_introl eq_refl)). apply IH.
  intros d' Hd'. apply H. now right.
Qed.

(** Subtracting the float64 zero changes nothing. *)
Lemma float_sub_zero (x : float) : PrimFloat.sub x PrimFloat.zero = x.
Proof.
  apply Prim2SF_inj. rewrite FloatAxioms.sub_spec.
  change (Prim2SF PrimFloat.zero) with (S754_zero false).
  destruct (Prim2SF x) as [[|]| [|] | | sg m e]; reflexivity.
Qed.

Lemma priceless_recordsOf (docs : list bson.doc) :
  priceless docs -> priceless (recordsOf sub docs).
Proof.
  intros H d Hd. apply H. unfold recordsOf in Hd.
  now apply filter_In in Hd.
Qed.

(** Without a price among the records of the sub, nothing is spent and the
    balance is the credited sum. *)
Lemma spent_priceless (d : Database) :
  priceless (recordsOf sub (txns d)) ->
  spent sub d = PrimFloat.zero
  /\ PrimFloat.sub (credited sub d) (spent sub d) = credited sub d.
Proof.
  intros H. unfold spent at 1. rewrite (sumField_absent _ _ H).
  split; [reflexivity|]. unfold spent. rewrite (sumField_absent _ _ H).
  apply float_sub_zero.
Qed.

End Balance.

(* ================================================================== *)
(** ** Sessions and the buffering writer *)
(* ================================================================== *)

Section Writer.

Lemma NewSession_spec (db0 : DB) :
  staticDB (fst (NewSession db0)) = staticDB db0
  /\ nextObjectID (fst (NewSession db0)) = nextObjectID db0
  /\ forall sess, snd (NewSession db0) = Ok sess ->
       snapshot sess = staticDB db0 /\ inTransaction sess = false.
Proof.
  unfold NewSession, call. destruct (faults db0) as [|[flt|] fs]; simpl;
    (split; [reflexivity | split; [reflexivity |]]);
    intros s H; try discriminate; injection H as <-; now split.
Qed.

Lemma NewMongoWriter_spec (w0 : Sink) (sess : Session) (db0 : DB) :
  staticDB (fst (NewMongoWriter w0 sess db0)) = staticDB db0
  /\ nextObjectID (fst (NewMongoWriter w0 sess db0)) = nextObjectID db0
  /\ forall mw, snd (NewMongoWriter w0 sess db0) = Ok mw ->
       sink mw = w0 /\ snapshot (sctx mw) = snapshot sess.
Proof.
  unfold NewMongoWriter, StartTransaction, call.
  destruct (faults db0) as [|[flt|] fs]; simpl;
    (split; [reflexivity | split; [reflexivity |]]);
    intros mw H; try discriminate; injection H as <-; now split.
Qed.

(** The writer never writes to the real sink it wraps, whatever the handler
    calls on it; nor does it touch the session. *)
Lemma MongoWriter_do_sink (c : Call) (mw : MongoWriter) :
  sink (do c mw) = sink mw /\ sctx (do c mw) = sctx mw.
Proof.
  destruct c as [k v|code|b]; simpl.
  - now split.
  - now destruct (isSuccess code).
  - now destruct (0 <? errStatus mw)%Z.
Qed.

Lemma serve_MongoWriter_sink (calls : list Call) (mw : MongoWriter) :
  sink (serve calls mw) = sink mw /\ sctx (serve calls mw) = sctx mw.
Proof.
  revert mw. induction calls as [|c l IH]; intros mw; [now split|].
  change (serve (c :: l) mw) with (serve l (do c mw)).
  destruct (IH (do c mw)) as [-> ->].
  apply (MongoWriter_do_sink c mw).
Qed.

Lemma endUnitOfWork_spec (mw : MongoWriter) (db0 : DB) :
  let r := endUnitOfWork mw db0 in
  sink (fst r) = sink mw
  /\ ErrorStatus (fst r) = ErrorStatus mw
  /\ ErrorBuffer (fst r) = ErrorBuffer mw
  /\ FailedWithWriteConflict (fst r) = FailedWithWriteConflict mw
  /\ inTransaction (sctx (fst r)) = false
  /\ nextObjectID (snd r) = nextObjectID db0
  /\ staticDB (snd r) =
       if (ErrorStatus mw =? 0)%Z then staticDB db0 else snapshot (sctx mw).
Proof.
  unfold endUnitOfWork. destruct (ErrorStatus mw =? 0)%Z; simpl;
    repeat split; reflexivity.
Qed.

Lemma serve_Sink (calls : list Call) (w0 : Sink) : serve calls w0 = w0 ++ calls.
Proof.
  revert w0. induction calls as [|c l IH]; intros w0.
  - now rewrite app_nil_r.
  - change (serve (c :: l) w0) with (serve l (w0 ++ [c])).
    rewrite IH. now rewrite <- app_assoc.
Qed.

Variables (h : Handle) (req : Request) (body : string).

(** Every run of [handleFn] ends in one of the outcomes. *)
Lemma handleFn_outcome (st : State) :
  HandleOutcome h req body st (handleFn h req body st).
Proof.
  unfold handleFn.
  destruct (NewSession_spec (db st)) as [Hs1 [Hn1 Hsess]].
  destruct (NewSession (db st)) as [db1 [sess|err]]; cbn [fst snd] in *.
  2:{ apply outcome_no_session with (err := err);
        [reflexivity | cbn [w]; apply serve_Sink | reflexivity
        | assumption | assumption]. }
  destruct (Hsess sess eq_refl) as [Hsnap Hin].
  destruct (NewMongoWriter_spec (w st) sess db1) as [Hs2 [Hn2 Hmw]].
  destruct (NewMongoWriter (w st) sess db1) as [db2 [mw0|err]];
    cbn [fst snd] in *.
  2:{ assert (HE : EndSession sess db2 = db2).
      { unfold EndSession. now rewrite Hin. }
      rewrite HE.
      apply outcome_no_transaction with (err := err);
        [reflexivity | cbn [w]; apply serve_Sink | reflexivity
        | cbn [db]; congruence | cbn [db]; congruence]. }
  destruct (Hmw mw0 eq_refl) as [Hsink Hsnap0].
  destruct (h {| Body := Some (Ok body); Done := Done req |} db2)
    as [calls dbh] eqn:Hh.
  destruct (serve_MongoWriter_sink calls mw0) as [Hk1 Hk2].
  pose proof (endUnitOfWork_spec (serve calls mw0) dbh) as Hend.
  destruct (endUnitOfWork (serve calls mw0) dbh) as [mw db4] eqn:Hu.
  cbv zeta in Hend. cbn [fst snd] in Hend.
  destruct Hend as [Ha [Hb [Hc [Hd [He [Hf Hg]]]]]].
  assert (HE : EndSession (sctx mw) db4 = db4).
  { unfold EndSession. now rewrite He. }
  rewrite HE.
  assert (Hsk : sink mw = w st) by congruence.
  assert (Hst : staticDB db4 =
                if (ErrorStatus mw =? 0)%Z then staticDB dbh
                else staticDB (db st)).
  { rewrite Hg, Hb. destruct (ErrorStatus _ =? 0)%Z; [reflexivity|].
    rewrite Hk2, Hsnap0. exact Hsnap. }
  assert (Hs12 : staticDB db2 = staticDB (db st)) by congruence.
  assert (Hn12 : nextObjectID db2 = nextObjectID (db st)) by congruence.
  cbv zeta. cbn [Done].
  destruct (ErrorStatus mw =? 0)%Z eqn:Hz.
  - apply (outcome_ran h req body st db2 calls dbh mw);
      try assumption; try reflexivity.
    + cbn [db]. now rewrite Hz.
    + cbn [w numRetriesLeft]. rewrite Hz. now rewrite Hsk.
  - destruct (FailedWithWriteConflict mw && (numRetriesLeft st >? 0)%Z) eqn:Hr.
    + destruct (Done req (List.length (attempts st))) eqn:HD.
      * apply (outcome_ran h req body st db2 calls dbh mw);
          try assumption; try reflexivity.
        -- cbn [db]. now rewrite Hz.
        -- cbn [w numRetriesLeft]. rewrite Hz, Hr, HD. cbn [negb andb].
           now rewrite serve_Sink, Hsk.
      * apply (outcome_ran h req body st db2 calls dbh mw);
          try assumption; try reflexivity.
        -- cbn [db]. now rewrite Hz.
        -- cbn [w numRetriesLeft]. rewrite Hz, Hr, HD. cbn [negb andb].
           now rewrite Hsk.
    + apply (outcome_ran h req body st db2 calls dbh mw);
        try assumption; try reflexivity.
      * cbn [db]. now rewrite Hz.
      * cbn [w numRetriesLeft]. rewrite Hz, Hr. cbn [andb].
        now rewrite serve_Sink, Hsk.
Qed.

End Writer.

(* ================================================================== *)
(** ** Invariants of the ledger *)
(* ================================================================== *)

Section Invariants.

Lemma good_mono (d : Database) (n m : N) :
  good d n -> (n <= m)%N -> good d m.
Proof.
  intros [Hu [Hr [Hf [Hsub Hp]]]] Hle. repeat split; try assumption.
  intros x k Hx Hk. specialize (Hf x k Hx Hk). lia.
Qed.

(** The primary key of every collection: an insert keeps the [_id]s
    distinct, whatever is inserted and wherever. *)
Lemma InsertOne_uniqueIDs (c c' : collection) (m : bson.marshalled) (db : DB) :
  uniqueIDs (Collection (staticDB db) c') ->
  uniqueIDs (Collection (staticDB (fst (InsertOne c m db))) c').
Proof.
  intros Hu. destruct (InsertOne_outcome c m db) as [db' flt Hs|db' Hs _|db' Hs Hd];
    cbn [fst]; rewrite Hs; try assumption.
  destruct c, c'; simpl; try assumption; simpl in Hu, Hd;
    unfold uniqueIDs; rewrite map_app; simpl;
    (apply NoDup_app; [exact Hu | repeat constructor; intros [] |]);
    intros a Ha [<- | []]; now apply hasID_false in Hd.
Qed.

Lemma NewUser_Inv (sub : string) (db : DB) :
  Inv db ->
  Inv (fst (NewUser sub db))
  /\ (nextObjectID db <= nextObjectID (fst (NewUser sub db)))%N
  /\ IsDuplicateKeyError (errOf (snd (NewUser sub db))) = false
  /\ (errOf (snd (NewUser sub db)) = None ->
      exists u, In u (users (staticDB (fst (NewUser sub db))))
                /\ subOf u = Some sub).
Proof.
  intros [Hu [Hr [Hf [Hsub Hp]]]]. destruct (NewUser_insert sub db) as [-> ->].
  set (m := User.marshal {| User.Sub := sub |}).
  destruct (InsertOne_env collUsers m db) as [Hn _].
  assert (Hnext : nextObjectID (fst (InsertOne collUsers m db))
                  = N.succ (nextObjectID db)) by (rewrite Hn; reflexivity).
  unfold Inv. rewrite Hnext.
  destruct (InsertOne_outcome collUsers m db) as [db' flt Hs|db' Hs Hd|db' Hs Hd];
    cbn [fst snd errOf].
  - rewrite Hs. split; [|split; [lia|split]].
    + apply good_mono with (n := nextObjectID db); [now repeat split | lia].
    + apply faultError_not_duplicate.
    + discriminate.
  - exfalso. simpl in Hd. apply hasID_In in Hd. apply in_map_iff in Hd.
    destruct Hd as [d [Hid Hin]].
    exact (N.lt_irrefl _ (Hf d _ Hin Hid)).
  - rewrite Hs. simpl. split; [|split; [lia|split; [reflexivity|]]].
    + repeat split; try assumption.
      * intros t s Ht Hsu. destruct (Hr t s Ht Hsu) as [u [Hin Hsu']].
        exists u. split; [|assumption]. simpl. apply in_or_app. now left.
      * intros d k Hin Hid. simpl in Hin. apply in_app_or in Hin.
        destruct Hin as [Hin | [<- | []]].
        -- specialize (Hf d k Hin Hid). lia.
        -- simpl in Hid. injection Hid as <-. lia.
    + intros _. exists (userDoc sub (nextObjectID db)). split.
      * apply in_or_app. right. now left.
      * unfold subOf. now simpl.
Qed.

Lemma NewTxn_Inv (id sub : string) (amount : float) (db : DB) :
  Inv db ->
  (exists u, In u (users (staticDB db)) /\ subOf u = Some sub) ->
  Inv (fst (NewTxn id sub amount db))
  /\ nextObjectID (fst (NewTxn id sub amount db)) = nextObjectID db.
Proof.
  intros [Hu [Hr [Hf [Hsub Hp]]]] Huser.
  destruct (NewTxn_insert id sub amount db) as [-> _].
  set (m := Txn.marshal {| Txn.ID := id; Txn.Sub := sub; Txn.Amount := amount |}).
  destruct (InsertOne_env collTnxs m db) as [Hn _].
  assert (Hnext : nextObjectID (fst (InsertOne collTnxs m db)) = nextObjectID db)
    by (rewrite Hn; reflexivity).
  split; [|exact Hnext]. unfold Inv. rewrite Hnext.
  pose proof (InsertOne_uniqueIDs collTnxs collTnxs m db Hu) as Hu'.
  destruct (InsertOne_outcome collTnxs m db) as [db' flt Hs|db' Hs Hd|db' Hs Hd];
    cbn [fst] in *; try (rewrite Hs; now repeat split).
  split; [exact Hu'|]. rewrite Hs. simpl.
  split; [|split; [exact Hf | split; [exact Hsub|]]].
  - intros t s Ht Hsu. simpl in Ht. apply in_app_or in Ht.
    destruct Ht as [Ht | [<- | []]].
    + apply (Hr t s Ht Hsu).
    + unfold subOf in Hsu. simpl in Hsu. injection Hsu as <-. exact Huser.
  - intros t Ht. apply in_app_or in Ht. destruct Ht as [Ht | [<- | []]].
    + apply (Hp t Ht).
    + reflexivity.
Qed.

Lemma CreditUser_Inv (sub txnID : string) (amount : float) (db : DB) :
  Inv db ->
  Inv (fst (CreditUser sub amount txnID db))
  /\ (nextObjectID db <= nextObjectID (fst (CreditUser sub amount txnID db)))%N.
Proof.
  intros HI. destruct (NewUser_Inv sub db HI) as [HI1 [Hle [Hnd Hex]]].
  unfold CreditUser. destruct (NewUser sub db) as [db1 r]. cbn [fst snd] in *.
  cbv zeta. rewrite Hnd. cbn [negb].
  destruct (errOf r) as [e|] eqn:He.
  - now split.
  - destruct (NewTxn_Inv txnID sub amount db1 HI1 (Hex eq_refl)) as [HI2 Hn2].
    destruct (NewTxn txnID sub amount db1) as [db2 r2]. cbn [fst snd] in *.
    destruct (IsDuplicateKeyError (errOf r2));
      [cbn [fst]; split; [assumption | lia]|].
    destruct (errOf r2); cbn [fst]; (split; [assumption | lia]).
Qed.

Lemma call_static (op : Op) (db : DB) :
  staticDB (fst (call op db)) = staticDB db
  /\ nextObjectID (fst (call op db)) = nextObjectID db.
Proof. now split. Qed.

Lemma Aggregate_static (c : collection) (sub out field : string) (db : DB) :
  staticDB (fst (Aggregate c sub out field db)) = staticDB db
  /\ nextObjectID (fst (Aggregate c sub out field db)) = nextObjectID db.
Proof.
  unfold Aggregate, call. destruct (faults db) as [|[flt|] fs]; now split.
Qed.

Lemma userCredit_static (sub : string) (db : DB) :
  staticDB (fst (userCredit sub db)) = staticDB db
  /\ nextObjectID (fst (userCredit sub db)) = nextObjectID db.
Proof.
  unfold userCredit.
  pose proof (Aggregate_static collTnxs sub "credit" "amount" db) as H.
  destruct (Aggregate collTnxs sub "credit" "amount" db) as [db1 [[|d l]|e]];
    try exact H.
  now destruct (Decode "credit" d).
Qed.

Lemma userSpent_static (sub : string) (db : DB) :
  staticDB (fst (userSpent sub db)) = staticDB db
  /\ nextObjectID (fst (userSpent sub db)) = nextObjectID db.
Proof.
  unfold userSpent.
  pose proof (Aggregate_static collTnxs sub "spent" "price" db) as H.
  destruct (Aggregate collTnxs sub "spent" "price" db) as [db1 [[|d l]|e]];
    try exact H.
  now destruct (Decode "spent" d).
Qed.

Lemma UserBalance_static (sub : string) (db : DB) :
  staticDB (fst (UserBalance sub db)) = staticDB db
  /\ nextObjectID (fst (UserBalance sub db)) = nextObjectID db.
Proof.
  unfold UserBalance. pose proof (userCredit_static sub db) as H.
  destruct (userCredit sub db) as [db1 [credit|e]]; [|exact H].
  pose proof (userSpent_static sub db1) as H1. cbn [fst] in H.
  destruct (userSpent sub db1) as [db2 [sp|e]]; cbn [fst] in *;
    destruct H as [<- <-]; exact H1.
Qed.

End Invariants.

(* ================================================================== *)
(** ** The retry loop *)
(* ================================================================== *)

Section Retry.

Variables (h : Handle) (req : Request) (body : string).

Lemma conflict_is_error (mw : MongoWriter) :
  conflictAttempt (Ran mw) = true ->
  (ErrorStatus mw =? 0)%Z = false /\ FailedWithWriteConflict mw = true.
Proof.
  cbn [conflictAttempt]. intros H. apply andb_prop in H.
  destruct H as [H1 H2]. split; [|assumption].
  now destruct (ErrorStatus mw =? 0)%Z.
Qed.

(** One run of [handleFn]: it adds one attempt; it asks for a retry only
    after a write conflict, with retries left and a live request, and then
    it has written nothing, rolled the unit of work back and counted the
    retry; otherwise it has sent the response of the attempt. *)
Lemma handleFn_step (st : State) :
  exists a,
    attempts (snd (handleFn h req body st)) = attempts st ++ [a]
    /\ (fst (handleFn h req body st) = true ->
        conflictAttempt a = true
        /\ w (snd (handleFn h req body st)) = w st
        /\ numRetriesLeft (snd (handleFn h req body st))
           = (numRetriesLeft st - 1)%Z
        /\ (0 < numRetriesLeft st)%Z
        /\ Done req (List.length (attempts st)) = false
        /\ staticDB (db (snd (handleFn h req body st))) = staticDB (db st))
    /\ (fst (handleFn h req body st) = false ->
        w (snd (handleFn h req body st)) = w st ++ responseOf a
        /\ numRetriesLeft (snd (handleFn h req body st)) = numRetriesLeft st
        /\ (succeeded a = false ->
            staticDB (db (snd (handleFn h req body st))) = staticDB (db st))
        /\ (conflictAttempt a = true ->
            (numRetriesLeft st <= 0)%Z
            \/ Done req (List.length (attempts st)) = true)).
Proof.
  pose proof (handleFn_outcome h req body st) as H.
  destruct (handleFn h req body st) as [retry st']. cbn [fst snd].
  inversion H as [err st1 Ha Hw Hn Hs Ho | err st1 Ha Hw Hn Hs Ho
                 | db2 calls dbh mw r st1 Hs2 Hn2 Hh Ha Hk Hs Ho Hd]; subst.
  - exists (SessionFailed err). split; [assumption|]. split; [discriminate|].
    intros _. repeat split; try assumption; try (intros _; assumption).
    discriminate.
  - exists (TransactionFailed err). split; [assumption|]. split; [discriminate|].
    intros _. repeat split; try assumption; try (intros _; assumption).
    discriminate.
  - exists (Ran mw). split; [assumption|].
    cbn [conflictAttempt succeeded responseOf].
    destruct (ErrorStatus mw =? 0)%Z eqn:Hz; cbn [negb andb].
    + injection Hd as -> -> ->. split; [discriminate|]. intros _.
      rewrite app_nil_r. repeat split; discriminate.
    + destruct (FailedWithWriteConflict mw) eqn:Hc; cbn [andb] in Hd.
      * destruct (numRetriesLeft st >? 0)%Z eqn:Hr; cbn [andb] in Hd.
        -- destruct (Done req (List.length (attempts st))) eqn:HD;
             cbn [negb] in Hd; injection Hd as -> -> ->.
           ++ split; [discriminate|]. intros _. repeat split; auto.
           ++ split; [|discriminate]. intros _. repeat split; auto.
              apply Z.gtb_lt in Hr. lia.
        -- injection Hd as -> -> ->. split; [discriminate|]. intros _.
           repeat split; auto. intros _. left.
           rewrite Z.gtb_ltb in Hr. apply Z.ltb_ge in Hr. exact Hr.
      * injection Hd as -> -> ->. split; [discriminate|]. intros _.
        repeat split; auto. discriminate.
Qed.

(** The loop ends within [numRetriesLeft + 1] runs: the retried attempts
    [pre] all recorded a write conflict and wrote nothing, and the last
    attempt [a] sent the response. *)
Lemma retryLoop_spec (fuel : nat) (st : State) :
  (0 <= numRetriesLeft st)%Z ->
  (Z.to_nat (numRetriesLeft st) < fuel)%nat ->
  exists st' pre a,
    retryLoop fuel h req body st = Some st'
    /\ attempts st' = attempts st ++ pre ++ [a]
    /\ Forall (fun x => conflictAttempt x = true) pre
    /\ numRetriesLeft st' = (numRetriesLeft st - Z.of_nat (List.length pre))%Z
    /\ (0 <= numRetriesLeft st')%Z
    /\ w st' = w st ++ responseOf a
    /\ (succeeded a = false -> staticDB (db st') = staticDB (db st))
    /\ (conflictAttempt a = true ->
        numRetriesLeft st' = 0%Z
        \/ exists n, Done req n = true).
Proof.
  revert st. induction fuel as [|fuel IH]; intros st H0 Hlt; [lia|].
  cbn [retryLoop]. destruct (handleFn_step st) as [a [Ha [Ht Hf]]].
  destruct (handleFn h req body st) as [retry st1]. cbn [fst snd] in *.
  destruct retry.
  - destruct (Ht eq_refl) as [Hc [Hw [Hn [Hpos [_ Hs]]]]].
    destruct (IH st1) as [st' [pre [b [Hl [Hat [Hall [Hnum [Hge [Hsink [Hst Hend]]]]]]]]]];
      [lia | lia |].
    exists st', (a :: pre), b. rewrite Hl. split; [reflexivity|].
    split. { rewrite Hat, Ha, <- app_assoc. reflexivity. }
    split. { now constructor. }
    split. { rewrite Hnum, Hn. cbn [List.length]. lia. }
    split; [assumption|].
    split. { now rewrite Hsink, Hw. }
    split. { intros Hb. rewrite (Hst Hb). exact Hs. }
    exact Hend.
  - destruct (Hf eq_refl) as [Hw [Hn [Hs Hend]]].
    exists st1, [], a. split; [reflexivity|].
    split; [assumption|]. split; [constructor|].
    split. { rewrite Hn. cbn. lia. }
    split; [lia|]. split; [assumption|]. split; [assumption|].
    intros Hc. destruct (Hend Hc) as [Hz | HD].
    + left. lia.
    + right. eauto.
Qed.

Lemma handlerRuns_le (st : State) :
  (handlerRuns st <= List.length (attempts st))%nat.
Proof. unfold handlerRuns. apply filter_length_le. Qed.

Lemma handlerRuns_conflicts (st : State) :
  Forall (fun x => conflictAttempt x = true) (attempts st) ->
  handlerRuns st = List.length (attempts st).
Proof.
  unfold handlerRuns. induction (attempts st) as [|a l IH]; intros H.
  - reflexivity.
  - inversion H as [|x y Hx Hy]; subst. destruct a; try discriminate.
    simpl. now rewrite (IH Hy).
Qed.

End Retry.

(* ================================================================== *)
(** ** Reachable states *)
(* ================================================================== *)

Section Reachable.

(** A handler that keeps the invariant of the ledger keeps it under the
    retry wrapper, whether its unit of work is committed or rolled back. *)
Lemma handleFn_Inv (h : Handle) (req : Request) (body : string) (st : State) :
  (forall rq d, Inv d ->
     Inv (snd (h rq d)) /\ (nextObjectID d <= nextObjectID (snd (h rq d)))%N) ->
  Inv (db st) -> Inv (db (snd (handleFn h req body st))).
Proof.
  intros Hh HI. pose proof (handleFn_outcome h req body st) as H.
  destruct (handleFn h req body st) as [retry st']. cbn [snd].
  unfold Inv in *.
  inversion H as [err st1 Ha Hw Hn Hs Ho | err st1 Ha Hw Hn Hs Ho
                 | db2 calls dbh mw r st1 Hs2 Hn2 Hr Ha Hk Hs Ho Hd]; subst.
  - now rewrite Hs, Ho.
  - now rewrite Hs, Ho.
  - assert (H2 : good (staticDB db2) (nextObjectID db2))
      by now rewrite Hs2, Hn2.
    destruct (Hh {| Body := Some (Ok body); Done := Done req |} db2 H2)
      as [HIh Hle].
    rewrite Hr in *. cbn [snd] in *.
    rewrite Hs, Ho. destruct (ErrorStatus mw =? 0)%Z.
    + exact HIh.
    + apply good_mono with (n := nextObjectID (db st)); [assumption | lia].
Qed.

Lemma retryLoop_Inv (h : Handle) (req : Request) (body : string) (fuel : nat) :
  (forall rq d, Inv d ->
     Inv (snd (h rq d)) /\ (nextObjectID d <= nextObjectID (snd (h rq d)))%N) ->
  forall st st', Inv (db st) -> retryLoop fuel h req body st = Some st' ->
  Inv (db st').
Proof.
  intros Hh. induction fuel as [|fuel IH]; intros st st' HI Hl; [discriminate|].
  cbn [retryLoop] in Hl. pose proof (handleFn_Inv h req body st Hh HI) as H1.
  destruct (handleFn h req body st) as [[|] st1]; cbn [snd] in H1.
  - apply (IH st1 st' H1 Hl).
  - now injection Hl as <-.
Qed.

Lemma paymentPOST_Inv jsonDecode (rq : Request) (d : DB) :
  Inv d ->
  Inv (snd (paymentPOST jsonDecode rq d))
  /\ (nextObjectID d <= nextObjectID (snd (paymentPOST jsonDecode rq d)))%N.
Proof.
  intros HI. unfold paymentPOST.
  destruct (Body rq) as [read|]; [|split; [assumption | cbn; lia]].
  destruct (match read with
            | Ok b => jsonDecode b
            | Err err => Err err
            end) as [p|e]; [|split; [assumption | cbn; lia]].
  destruct (Validate p); [split; [assumption | cbn; lia]|].
  pose proof (CreditUser_Inv (PaymentPOST.Sub p) (PaymentPOST.TxnID p)
                (PaymentPOST.Credits p) d HI) as H.
  destruct (CreditUser _ _ _ d) as [d1 [e|]]; exact H.
Qed.

Lemma WithDBSession_Inv (h : Handle) (fuel : nat) w0 req db0 st :
  (forall rq d, Inv d ->
     Inv (snd (h rq d)) /\ (nextObjectID d <= nextObjectID (snd (h rq d)))%N) ->
  Inv db0 -> WithDBSession fuel h w0 req db0 = Some st -> Inv (db st).
Proof.
  intros Hh HI. unfold WithDBSession.
  destruct (Body req) as [[b|e]|]; intros H.
  - exact (retryLoop_Inv h req b fuel Hh
             {| w := w0; db := db0; numRetriesLeft := DBTxnRetryCount;
                attempts := [] |} st HI H).
  - now injection H as <-.
  - exact (retryLoop_Inv h req "" fuel Hh
             {| w := w0; db := db0; numRetriesLeft := DBTxnRetryCount;
                attempts := [] |} st HI H).
Qed.

(** The invariant holds in every state the service can be in. *)
Lemma reachable_Inv (db : DB) : reachable db -> Inv db.
Proof.
  induction 1 as [fs | db fs _ IH | db sub _ IH | db sub amount txnID _ IH
                 | db sub _ IH | db dec fuel w0 req st _ IH Hrun].
  - repeat split.
    + constructor.
    + intros t s [].
    + intros d m [].
    + intros d [].
  - exact IH.
  - apply (NewUser_Inv sub db IH).
  - apply (CreditUser_Inv sub txnID amount db IH).
  - unfold Inv. now destruct (UserBalance_static sub db) as [-> ->].
  - eapply WithDBSession_Inv; [|exact IH | exact Hrun].
    intros rq d. apply paymentPOST_Inv.
Qed.

End Reachable.

(* ================================================================== *)
(** ** The retry wrapper *)
(* ================================================================== *)

Section Wrapper.

Variables (h : Handle) (w0 : Sink) (req : Request) (db0 : DB).

(** The whole request: it ends, after at most [DBTxnRetryCount] retried
    attempts and one last attempt, or at once when the body cannot be
    read. *)
Lemma WithDBSession_spec (fuel : nat) :
  (6 <= fuel)%nat ->
  exists st,
    WithDBSession fuel h w0 req db0 = Some st
    /\ w st = w0 ++ terminalResponse req st
    /\ (List.length (attempts st) <= 6)%nat
    /\ (readable req ->
        exists pre a,
          attempts st = pre ++ [a]
          /\ Forall (fun x => conflictAttempt x = true) pre
          /\ numRetriesLeft st = (DBTxnRetryCount - Z.of_nat (List.length pre))%Z
          /\ (0 <= numRetriesLeft st)%Z
          /\ (succeeded a = false -> staticDB (db st) = staticDB db0)
          /\ (conflictAttempt a = true ->
              numRetriesLeft st = 0%Z \/ exists n, Done req n = true))
    /\ (~ readable req -> attempts st = []).
Proof.
  intros Hfuel. unfold WithDBSession, terminalResponse, readable.
  set (st0 := {| w := w0; db := db0; numRetriesLeft := DBTxnRetryCount;
                 attempts := [] |}).
  assert (Hloop : forall body,
    exists st pre a,
      retryLoop fuel h req body st0 = Some st
      /\ attempts st = pre ++ [a]
      /\ Forall (fun x => conflictAttempt x = true) pre
      /\ numRetriesLeft st = (DBTxnRetryCount - Z.of_nat (List.length pre))%Z
      /\ (0 <= numRetriesLeft st)%Z
      /\ w st = w0 ++ responseOf a
      /\ (succeeded a = false -> staticDB (db st) = staticDB db0)
      /\ (conflictAttempt a = true ->
          numRetriesLeft st = 0%Z \/ exists n, Done req n = true)).
  { intros body.
    destruct (retryLoop_spec h req body fuel st0) as [st [pre [a H]]].
    - unfold st0, DBTxnRetryCount. cbn. lia.
    - unfold st0, DBTxnRetryCount. cbn. lia.
    - exists st, pre, a. exact H. }
  assert (Hgo : forall body,
    exists st,
      retryLoop fuel h req body st0 = Some st
      /\ (exists a l, rev (attempts st) = a :: l /\ w st = w0 ++ responseOf a)
      /\ (List.length (attempts st) <= 6)%nat
      /\ exists pre a,
          attempts st = pre ++ [a]
          /\ Forall (fun x => conflictAttempt x = true) pre
          /\ numRetriesLeft st = (DBTxnRetryCount - Z.of_nat (List.length pre))%Z
          /\ (0 <= numRetriesLeft st)%Z
          /\ (succeeded a = false -> staticDB (db st) = staticDB db0)
          /\ (conflictAttempt a = true ->
              numRetriesLeft st = 0%Z \/ exists n, Done req n = true)).
  { intros body.
    destruct (Hloop body) as [st [pre [a [Hl [Ha [Hall [Hn [Hge [Hw [Hs He]]]]]]]]]].
    exists st. split; [assumption|]. split.
    { exists a, (rev pre). split; [|assumption].
      rewrite Ha, rev_app_distr. reflexivity. }
    split.
    { rewrite Ha, length_app. cbn [List.length].
      unfold DBTxnRetryCount in Hn. lia. }
    exists pre, a. repeat split; assumption. }
  destruct (Body req) as [[b|e]|].
  - destruct (Hgo b) as [st [Hl [[a [l [Hrev Hw]]] [Hlen Hex]]]].
    exists st. rewrite Hrev. repeat split; try assumption.
    + intros _. exact Hex.
    + intros Hn. now destruct Hn.
  - eexists. split; [reflexivity|]. cbn [w attempts]. rewrite serve_Sink.
    split; [reflexivity|]. split; [cbn; lia|]. split; [intros []|].
    reflexivity.
  - destruct (Hgo "") as [st [Hl [[a [l [Hrev Hw]]] [Hlen Hex]]]].
    exists st. rewrite Hrev. repeat split; try assumption.
    + intros _. exact Hex.
    + intros Hn. now destruct Hn.
Qed.

End Wrapper.

Lemma responses_responseOf (a : Attempt) :
  responses (responseOf a) = if succeeded a then 0%nat else 1%nat.
Proof.
  destruct a as [e|e|mw]; try reflexivity.
  cbn [responseOf succeeded]. now destruct (ErrorStatus mw =? 0)%Z.
Qed.

(** In a reachable state with the store answering, every user insert
    succeeds and appends a record, whether or not the sub has one. *)
Lemma NewUser_always_inserts (sub : string) (db : DB) :
  reachable db -> noFaults db ->
  errOf (snd (NewUser sub db)) = None
  /\ users (staticDB (fst (NewUser sub db)))
     = users (staticDB db) ++ [userDoc sub (nextObjectID db)].
Proof.
  intros Hr Hn. destruct (reachable_Inv db Hr) as [_ [_ [Hf _]]].
  destruct (NewUser_insert sub db) as [-> ->].
  destruct (InsertOne_noFaults collUsers (User.marshal {| User.Sub := sub |})
              db Hn) as [_ [[_ [_ Hd]] | [-> [-> _]]]].
  - exfalso. simpl in Hd. apply hasID_In in Hd. apply in_map_iff in Hd.
    destruct Hd as [d [Hid Hin]]. exact (N.lt_irrefl _ (Hf d _ Hin Hid)).
  - now split.
Qed.

(** In a reachable state there are no subscriptions and no transaction
    record carries a price. *)
Lemma reachable_spent (sub : string) (db : DB) :
  reachable db ->
  priceless (recordsOf sub (txns (staticDB db)))
  /\ subscriptions (staticDB db) = [].
Proof.
  intros Hr. destruct (reachable_Inv db Hr) as [_ [_ [_ [Hs Hp]]]].
  split; [now apply priceless_recordsOf | assumption].
Qed.

(* ================================================================== *)
(** ** The properties of the specification *)
(* ================================================================== *)

(** C1.  Idempotence of crediting.  For a positive amount and non-empty sub
    and txnID, with the store answering every call, the first [CreditUser]
    for a txnID not yet recorded followed by any number [n] of invocations
    with the same triple: every invocation returns nil; the credited total of
    the sub has the amount added exactly once, whatever [n], so that the
    balance goes from [credited - spent] to [(credited + amount) - spent],
    which is the balance before plus the amount when no record of the sub
    carries a price; exactly one transaction record is added; and every
    invocation after the first gets the duplicate-key error on the
    transaction-record insert, returns nil, and leaves the store as it was
    when that insert was refused, the refused insert being its last call to
    the store. *)
Theorem CreditUser_idempotent (sub txnID : string) (amount : float) (db : DB)
    (n : nat) :
  PrimFloat.ltb PrimFloat.zero amount = true ->
  sub <> "" -> txnID <> "" ->
  noFaults db ->
  hasID (bson.idString txnID) (txns (staticDB db)) = false ->
  let first := CreditUser sub amount txnID db in
  let after := CreditUserTimes n sub amount txnID (fst first) in
  snd first = None
  /\ Forall (fun e => e = None) (snd after)
  /\ snd (UserBalance sub db)
     = Ok (PrimFloat.sub (credited sub (staticDB db)) (spent sub (staticDB db)))
  /\ snd (UserBalance sub (fst after))
     = Ok (PrimFloat.sub (PrimFloat.add (credited sub (staticDB db)) amount)
                         (spent sub (staticDB db)))
  /\ (priceless (recordsOf sub (txns (staticDB db))) ->
      forall balance,
        snd (UserBalance sub db) = Ok balance ->
        snd (UserBalance sub (fst after)) = Ok (PrimFloat.add balance amount))
  /\ txns (staticDB (fst after))
     = txns (staticDB db) ++ [txnDoc txnID sub amount]
  /\ forall k, k < n ->
       let dbk := fst (CreditUserTimes k sub amount txnID (fst first)) in
       let dbu := fst (NewUser sub dbk) in
       snd (NewTxn txnID sub amount dbu) = Err (Mongo DuplicateKey)
       /\ CreditUser sub amount txnID dbk
          = (fst (NewTxn txnID sub amount dbu), None)
       /\ staticDB (fst (NewTxn txnID sub amount dbu)) = staticDB dbu
       /\ ops (fst (CreditUser sub amount txnID dbk)) =
            ops dbk ++
              [OpInsertOne collUsers (User.marshal {| User.Sub := sub |});
               OpInsertOne collTnxs
                 (Txn.marshal {| Txn.ID := txnID; Txn.Sub := sub;
                                 Txn.Amount := amount |})].
Proof.
  intros _ _ _ Hn Hfresh first after. subst first after.
  destruct (CreditUser_first sub txnID amount db Hn Hfresh) as [He [Ht Hn1]].
  assert (Hrec : hasID (bson.idString txnID)
                   (txns (staticDB (fst (CreditUser sub amount txnID db)))) = true).
  { rewrite Ht. apply hasID_txnDoc. }
  assert (Hall : forall k,
    noFaults (fst (CreditUserTimes k sub amount txnID
                     (fst (CreditUser sub amount txnID db))))
    /\ txns (staticDB (fst (CreditUserTimes k sub amount txnID
                              (fst (CreditUser sub amount txnID db)))))
       = txns (staticDB db) ++ [txnDoc txnID sub amount]
    /\ Forall (fun e => e = None)
         (snd (CreditUserTimes k sub amount txnID
                 (fst (CreditUser sub amount txnID db))))).
  { intros k.
    destruct (CreditUserTimes_replay sub txnID amount k _ Hn1 Hrec)
      as [H1 [H2 H3]].
    repeat split; [assumption | congruence | assumption]. }
  destruct (Hall n) as [Hnn [Htn Hen]].
  assert (Hafter :
    snd (UserBalance sub
           (fst (CreditUserTimes n sub amount txnID
                   (fst (CreditUser sub amount txnID db)))))
    = Ok (PrimFloat.sub (PrimFloat.add (credited sub (staticDB db)) amount)
                        (spent sub (staticDB db)))).
  { rewrite (UserBalance_noFaults sub _ Hnn). unfold credited at 1, spent at 1.
    rewrite Htn.
    destruct (credited_snoc sub (staticDB db) _ txnID amount eq_refl) as [-> ->].
    reflexivity. }
  split; [assumption|]. split; [assumption|].
  split; [now rewrite (UserBalance_noFaults sub db Hn)|].
  split; [exact Hafter|].
  split.
  { intros Hp balance Hb. rewrite Hafter.
    rewrite (UserBalance_noFaults sub db Hn) in Hb. cbn [snd] in Hb.
    destruct (spent_priceless sub (staticDB db) Hp) as [Hz Hc].
    rewrite Hc in Hb. injection Hb as <-. rewrite Hz.
    now rewrite float_sub_zero. }
  split; [assumption|].
  intros k _. cbv zeta. destruct (Hall k) as [Hnk [Htk _]].
  assert (Hreck : hasID (bson.idString txnID)
            (txns (staticDB (fst (CreditUserTimes k sub amount txnID
                         (fst (CreditUser sub amount txnID db)))))) = true).
  { rewrite Htk. apply hasID_txnDoc. }
  destruct (CreditUser_replay sub txnID amount _ Hnk Hreck) as [A [B [C _]]].
  pose proof (CreditUser_ops sub txnID amount _ Hnk) as D.
  auto.
Qed.

(** Scenario A of the payment notification, at the ledger: crediting
    ("userA", 10, "tx1") twice on the empty database leaves the balance 10. *)
Lemma CreditUser_idempotent_witness :
  snd (UserBalance "userA"
         (fst (CreditUserTimes 1 "userA" 10%float "tx1"
                 (fst (CreditUser "userA" 10%float "tx1" (newDB []))))))
  = Ok 10%float.
Proof.
  exact (proj1 (proj2 (proj2 (proj2
    (CreditUser_idempotent "userA" "tx1" 10%float (newDB []) 1
       eq_refl
       (fun H => ltac:(discriminate H))
       (fun H => ltac:(discriminate H))
       (Forall_nil _)
       eq_refl))))).
Defined.

(** Scenario A under the wrapper: the payment and its replay both record
    the success status 204, one transaction record is kept, and the balance
    is 10 after either. *)
Lemma payment_twice :
  let once := WithDBSession 6 (paymentPOST decodeA) [] request (newDB []) in
  let twice :=
    match once with
    | Some st => WithDBSession 6 (paymentPOST decodeA) [] request (db st)
    | None => None
    end in
  let summary (r : option State) :=
    option_map
      (fun st =>
         (map (fun a => match a with Ran mw => Some (recordedStatus mw)
                                   | _ => None end) (attempts st),
          txns (staticDB (db st)),
          snd (UserBalance "userA" (db st)))) r in
  summary once
    = Some ([Some 204%Z], [txnDoc "tx1" "userA" 10%float], Ok 10%float)
  /\ summary twice
    = Some ([Some 204%Z], [txnDoc "tx1" "userA" 10%float], Ok 10%float).
Proof. split; reflexivity. Qed.

(** C2, as stated, fails: with every attempt of a payment recording a write
    conflict and a request that never expires, the handler is invoked 6
    times, not 5; nothing is written to the store and the last conflict is
    the response. *)
Lemma bounded_retry_not_five_attempts :
  option_map
    (fun st => (handlerRuns st, forallb conflictAttempt (attempts st),
                w st, staticDB (db st)))
    (WithDBSession 6 (paymentPOST decodeA) [] request (newDB (conflicts 6)))
  = Some (6%nat, true,
          [WriteHeader 500;
           Write [errorWrap (Context "failed to create user"
                               (Mongo WriteConflict))]],
          emptyDatabase)
  /\ 6%nat <> Z.to_nat DBTxnRetryCount.
Proof. split; [reflexivity | discriminate]. Qed.

(** C2, amended.  Bounded retry: with the retry budget [DBTxnRetryCount] at
    5, a readable request that never expires ends, and if every attempt
    recorded a conflict-classified error then the handler was invoked exactly
    [DBTxnRetryCount + 1] = 6 times (the first attempt and 5 retries), the
    collections of the store are as before the request, and the response is
    the error status and error buffer recorded by the last attempt. *)
Theorem bounded_retry (h : Handle) (w0 : Sink) (req : Request) (db0 : DB)
    (fuel : nat) :
  (6 <= fuel)%nat ->
  readable req ->
  (forall n, Done req n = false) ->
  exists st,
    WithDBSession fuel h w0 req db0 = Some st
    /\ (Forall (fun a => conflictAttempt a = true) (attempts st) ->
        Z.of_nat (handlerRuns st) = (DBTxnRetryCount + 1)%Z
        /\ handlerRuns st = 6%nat
        /\ staticDB (db st) = staticDB db0
        /\ exists pre mw,
             attempts st = pre ++ [Ran mw]
             /\ FailedWithWriteConflict mw = true
             /\ ErrorStatus mw <> 0%Z
             /\ w st = w0 ++ [WriteHeader (ErrorStatus mw);
                              Write (ErrorBuffer mw)]).
Proof.
  intros Hfuel Hread Hlive.
  destruct (WithDBSession_spec h w0 req db0 fuel Hfuel)
    as [st [Hrun [Hw [_ [Hex _]]]]].
  exists st. split; [assumption|]. intros Hall.
  destruct (Hex Hread) as [pre [a [Ha [_ [Hn [_ [Hs He]]]]]]].
  assert (Hca : conflictAttempt a = true).
  { rewrite Ha in Hall. apply Forall_app in Hall. destruct Hall as [_ Hl].
    now inversion Hl. }
  destruct a as [e|e|mw]; try discriminate.
  destruct (conflict_is_error mw Hca) as [Hz Hfw].
  assert (Hzero : numRetriesLeft st = 0%Z).
  { destruct (He Hca) as [H0 | [n HD]]; [assumption|].
    rewrite Hlive in HD. discriminate. }
  assert (Hlen : List.length (attempts st) = 6%nat).
  { rewrite Ha, length_app. cbn [List.length].
    unfold DBTxnRetryCount in Hn. lia. }
  rewrite (handlerRuns_conflicts st Hall), Hlen.
  split; [reflexivity|]. split; [reflexivity|].
  split; [apply Hs; cbn [succeeded]; exact Hz|].
  exists pre, mw. split; [assumption|]. split; [assumption|].
  split; [apply Z.eqb_neq; exact Hz|].
  rewrite Hw. unfold terminalResponse, readable in *.
  rewrite Ha, rev_app_distr. cbn [rev app responseOf]. rewrite Hz.
  now destruct (Body req) as [[b|e]|].
Qed.

Lemma bounded_retry_witness :
  exists st,
    WithDBSession 6 (paymentPOST decodeA) [] request (newDB (conflicts 6))
      = Some st
    /\ handlerRuns st = 6%nat
    /\ staticDB (db st) = emptyDatabase.
Proof.
  destruct (bounded_retry (paymentPOST decodeA) [] request
              (newDB (conflicts 6)) 6 (le_n 6) I (fun _ => eq_refl))
    as [st [Hrun Himp]].
  exists st. split; [exact Hrun|].
  assert (Hall : Forall (fun a => conflictAttempt a = true) (attempts st)).
  { vm_compute in Hrun. injection Hrun as <-. repeat constructor. }
  destruct (Himp Hall) as [_ [H6 [Hs _]]]. split; assumption.
Defined.

(** C3.  The schema declares no index on the users collection and no unique
    index at all, and a [User] is stored under a generated [_id]: crediting
    the sub "userA" twice, for two payments, stores two user records of
    "userA", and neither user insert reports a duplicate key. *)
Theorem users_not_unique_per_sub :
  schema collUsers = []
  /\ (forall c ix, In ix (schema c) -> Unique ix = false)
  /\ let db1 := fst (CreditUser "userA" 10%float "tx1" (newDB [])) in
     let db2 := fst (CreditUser "userA" 5%float "tx2" db1) in
     errOf (snd (NewUser "userA" (newDB []))) = None
     /\ errOf (snd (NewUser "userA" db1)) = None
     /\ users (staticDB db2) = [userDoc "userA" 0; userDoc "userA" 1]
     /\ map subOf (users (staticDB db2)) = [Some "userA"; Some "userA"].
Proof.
  split; [reflexivity|]. split.
  - intros c ix H. destruct c; simpl in H;
      repeat (destruct H as [<- | H]; [reflexivity|]); contradiction.
  - cbv zeta. repeat split; reflexivity.
Qed.

Lemma responses_app (w1 w2 : Sink) :
  responses (w1 ++ w2) = (responses w1 + responses w2)%nat.
Proof. unfold responses. now rewrite filter_app, length_app. Qed.

(** C4.  Validation precedes I/O.  When the parsed body of a payment request
    has credits <= 0, or an empty sub, or an empty txnID, [paymentPOST]
    answers with the validation error and status 400: the calls on its
    writer are the JSON content type, the status line 400 and the error as
    the body, one response on whatever sink they reach.  The database is
    exactly as before: no call was sent to the store, [CreditUser] was not
    invoked. *)
Theorem validation_precedes_io jsonDecode (req : Request) (db : DB)
    (b : string) (p : PaymentPOST.t) :
  Body req = Some (Ok b) ->
  jsonDecode b = Ok p ->
  PrimFloat.leb (PaymentPOST.Credits p) PrimFloat.zero = true
    \/ PaymentPOST.Sub p = "" \/ PaymentPOST.TxnID p = "" ->
  exists err,
    Validate p = Some err
    /\ paymentPOST jsonDecode req db = (WriteError err StatusBadRequest, db)
    /\ StatusBadRequest = 400%Z
    /\ ops (snd (paymentPOST jsonDecode req db)) = ops db
    /\ staticDB (snd (paymentPOST jsonDecode req db)) = staticDB db
    /\ fst (paymentPOST jsonDecode req db)
       = [HeaderSet "Content-Type" "application/json; charset=utf-8";
          WriteHeader 400; Write [errorWrap err]]
    /\ statuses (fst (paymentPOST jsonDecode req db)) = [400%Z]
    /\ (forall w0 : Sink,
          serve (fst (paymentPOST jsonDecode req db)) w0
          = w0 ++ [HeaderSet "Content-Type" "application/json; charset=utf-8";
                   WriteHeader 400; Write [errorWrap err]]
          /\ responses (serve (fst (paymentPOST jsonDecode req db)) w0)
             = S (responses w0)).
Proof.
  intros Hb Hd Hinv.
  assert (Hv : exists err, Validate p = Some err).
  { unfold Validate. destruct Hinv as [Hc | [Hs | Ht]].
    - rewrite Hc. eauto.
    - rewrite Hs. destruct (PrimFloat.leb _ _); simpl; eauto.
    - rewrite Ht. destruct (PrimFloat.leb _ _); [eauto|].
      destruct (String.eqb (PaymentPOST.Sub p) ""); simpl; eauto. }
  destruct Hv as [err Hv]. exists err.
  assert (Hp : paymentPOST jsonDecode req db = (WriteError err StatusBadRequest, db)).
  { unfold paymentPOST. now rewrite Hb, Hd, Hv. }
  rewrite Hp. cbn [fst snd].
  split; [assumption|]. split; [reflexivity|]. split; [reflexivity|].
  split; [reflexivity|]. split; [reflexivity|]. split; [reflexivity|].
  split; [reflexivity|]. intros w0. rewrite serve_Sink.
  split; [reflexivity|]. rewrite responses_app. cbn. lia.
Qed.

(** Scenario C: credits -5 are rejected with the error of [Validate], and
    nothing is sent to the store. *)
Lemma validation_precedes_io_witness :
  paymentPOST decodeC request (newDB []) =
    (WriteError (New "non-positive credits amount") 400, newDB []).
Proof.
  destruct (validation_precedes_io decodeC request (newDB []) "{}" paymentC
              eq_refl eq_refl (or_introl eq_refl)) as [err [Hv [Hp _]]].
  injection Hv as <-. exact Hp.
Defined.

(** Scenario C through the retry wrapper: one attempt, rolled back, and the
    400 answer flushed. *)
Lemma payment_invalid_request :
  option_map (fun st => (w st, handlerRuns st, staticDB (db st), ops (db st)))
    (WithDBSession 6 (paymentPOST decodeC) [] request (newDB []))
  = Some ([WriteHeader 400; Write [errorWrap (New "non-positive credits amount")]],
          1%nat, emptyDatabase,
          [OpStartSession; OpStartTransaction; OpAbort]).
Proof. reflexivity. Qed.





(** The subscriptions and the users collections are not read: the balance
    is the same whatever they hold. *)
(** A subscription of the sub, priced 5, is not counted as spent: the
    balance is the 10 credited. *)
Lemma UserBalance_subscribed :
  snd (UserBalance "userA" subscribedDB) = Ok 10%float.
Proof. reflexivity. Qed.

Lemma UserBalance_reads_txns_only (sub : string) (db : DB) subs us :
  noFaults db ->
  snd (UserBalance sub
         (withDatabase db {| subscriptions := subs; txns := txns (staticDB db);
                             users := us |}))
  = snd (UserBalance sub db).
Proof.
  intros Hn. apply UserBalance_txns; [exact Hn | exact Hn | reflexivity].
Qed.

(** C6.  Transaction-record uniqueness.  In every reachable state of the
    store no two transaction records have the same id, and whatever
    sequence of inserts the store receives from there, from whichever
    callers, the ids stay distinct; once an id is recorded, a further insert with it, for whatever sub and
    amount, reports a duplicate key and inserts nothing. *)
Theorem transaction_records_unique (db : DB) :
  reachable db ->
  uniqueIDs (txns (staticDB db))
  /\ (forall db', inserts db db' -> uniqueIDs (txns (staticDB db')))
  /\ forall id sub amount,
       noFaults db ->
       hasID (bson.idString id) (txns (staticDB db)) = true ->
       snd (NewTxn id sub amount db) = Err (Mongo DuplicateKey)
       /\ staticDB (fst (NewTxn id sub amount db)) = staticDB db.
Proof.
  intros Hr. split; [|split].
  - apply (reachable_Inv db Hr).
  - intros db' Hi. induction Hi as [|db' c m _ IH|db' fs _ IH].
    + apply (reachable_Inv db Hr).
    + apply (InsertOne_uniqueIDs c collTnxs m db' IH).
    + exact IH.
  - intros id sub amount Hn Hid.
    destruct (NewTxn_noFaults_recorded sub id amount db Hn Hid) as [_ [H1 H2]].
    now split.
Qed.

(** After a payment and its replay the ids are distinct, and a third
    insert of "tx1" is refused. *)
Lemma transaction_records_unique_witness :
  let db := fst (CreditUser "userA" 10%float "tx1"
              (fst (CreditUser "userA" 10%float "tx1" (newDB [])))) in
  uniqueIDs (txns (staticDB db))
  /\ snd (NewTxn "tx1" "userB" 7%float db) = Err (Mongo DuplicateKey).
Proof.
  cbv zeta.
  pose proof (transaction_records_unique
    (fst (CreditUser "userA" 10%float "tx1"
            (fst (CreditUser "userA" 10%float "tx1" (newDB [])))))
    (reach_CreditUser _ _ _ _ (reach_CreditUser _ _ _ _ (reach_new []))))
    as [H1 H2].
  split; [exact H1|].
  exact (proj1 (proj2 H2 "tx1" "userB" 7%float (Forall_nil _) eq_refl)).
Defined.

(** C7.  Referential invariant.  In every reachable state of the store a
    transaction record of a sub comes with a user record of that sub.
    [CreditUser] inserts the user before the transaction record; when the
    user insert fails with anything but a duplicate key, it returns that
    error before any transaction record is inserted and the collections
    are as they were. *)
Theorem transaction_implies_user (db : DB) :
  reachable db ->
  referential (staticDB db)
  /\ (forall sub amount txnID,
        noFaults db ->
        ops (fst (CreditUser sub amount txnID db)) =
          ops db ++ [OpInsertOne collUsers (User.marshal {| User.Sub := sub |});
                     OpInsertOne collTnxs
                       (Txn.marshal {| Txn.ID := txnID; Txn.Sub := sub;
                                       Txn.Amount := amount |})])
  /\ (forall sub amount txnID flt fs,
        faults db = Some flt :: fs ->
        CreditUser sub amount txnID db =
          (fst (NewUser sub db),
           Some (AddContext (faultError flt) "failed to create user"))
        /\ staticDB (fst (CreditUser sub amount txnID db)) = staticDB db
        /\ ops (fst (CreditUser sub amount txnID db)) =
             ops db ++ [OpInsertOne collUsers
                          (User.marshal {| User.Sub := sub |})]).
Proof.
  intros Hr. split; [apply (reachable_Inv db Hr)|]. split.
  - intros sub amount txnID Hn. apply CreditUser_ops. exact Hn.
  - intros sub amount txnID flt fs Hf.
    assert (HN : NewUser sub db =
      (fst (call (OpInsertOne collUsers (User.marshal {| User.Sub := sub |}))
              (snd (ensureID (User.marshal {| User.Sub := sub |}) db))),
       Err (faultError flt))).
    { unfold NewUser. rewrite (InsertOne_fault _ _ _ flt); [reflexivity|].
      unfold call. cbn. now rewrite Hf. }
    unfold CreditUser. rewrite HN. cbn [errOf fst snd].
    rewrite faultError_not_duplicate. cbn [negb].
    split; [reflexivity|]. split; reflexivity.
Qed.

(** A payment leaves its user record next to its transaction record; with
    the user insert failing, nothing is written. *)
Lemma transaction_implies_user_witness :
  referential (staticDB (fst (CreditUser "userA" 10%float "tx1" (newDB []))))
  /\ staticDB (fst (CreditUser "userA" 10%float "tx1"
                      (newDB [Some (FaultOther "connection reset")])))
     = emptyDatabase.
Proof.
  split.
  - exact (proj1 (transaction_implies_user
      (fst (CreditUser "userA" 10%float "tx1" (newDB [])))
      (reach_CreditUser _ _ _ _ (reach_new [])))).
  - exact (proj1 (proj2 (proj2 (proj2 (transaction_implies_user
      (newDB [Some (FaultOther "connection reset")]) (reach_new _)))
      "userA" 10%float "tx1" (FaultOther "connection reset") [] eq_refl))).
Defined.

(** C8.  Non-conflict errors are terminal.  When the attempt made from a
    state [st] of the loop ran the handler and the writer recorded an error
    that is not classified as a write conflict, [handleFn] asks for no
    retry, the loop ends there, and the real sink has received, once, the
    recorded error status followed by the recorded error body. *)
Theorem nonconflict_error_is_terminal (h : Handle) (req : Request)
    (body : string) (st : State) (mw : MongoWriter) (fuel : nat) :
  attempts (snd (handleFn h req body st)) = attempts st ++ [Ran mw] ->
  ErrorStatus mw <> 0%Z ->
  FailedWithWriteConflict mw = false ->
  fst (handleFn h req body st) = false
  /\ retryLoop (S fuel) h req body st = Some (snd (handleFn h req body st))
  /\ w (snd (handleFn h req body st))
     = w st ++ [WriteHeader (ErrorStatus mw); Write (ErrorBuffer mw)]
  /\ responses (w (snd (handleFn h req body st))) = S (responses (w st))
  /\ handlerRuns (snd (handleFn h req body st)) = S (handlerRuns st).
Proof.
  intros Hatt Herr Hnc.
  destruct (handleFn_step h req body st) as [a [Ha [Ht Hf]]].
  assert (a = Ran mw) as ->.
  { rewrite Ha in Hatt. now apply app_inj_tail in Hatt. }
  assert (Hstop : fst (handleFn h req body st) = false).
  { destruct (fst (handleFn h req body st)); [|reflexivity].
    destruct (Ht eq_refl) as [Hc _].
    destruct (conflict_is_error mw Hc) as [_ Hc']. congruence. }
  destruct (Hf Hstop) as [Hw _]. cbn [responseOf] in Hw.
  apply Z.eqb_neq in Herr. rewrite Herr in Hw.
  split; [assumption|]. split.
  { cbn [retryLoop]. destruct (handleFn h req body st) as [r st'].
    cbn [fst snd] in *. now subst r. }
  split; [assumption|]. split.
  - rewrite Hw. unfold responses. rewrite filter_app, length_app. cbn. lia.
  - unfold handlerRuns. rewrite Ha, filter_app, length_app. cbn. lia.
Qed.

(** A payment whose user insert meets a broken connection: the 500 answer
    is flushed and no retry is made. *)
Lemma nonconflict_error_is_terminal_witness :
  let st0 := initialState []
               (newDB [None; None; Some (FaultOther "connection reset")]) in
  retryLoop 1 (paymentPOST decodeA) request "{}" st0
    = Some (snd (handleFn (paymentPOST decodeA) request "{}" st0))
  /\ w (snd (handleFn (paymentPOST decodeA) request "{}" st0))
     = [WriteHeader 500;
        Write [errorWrap (Context "failed to create user"
                            (Mongo (CommandError "connection reset")))]].
Proof.
  pose proof (nonconflict_error_is_terminal (paymentPOST decodeA) request "{}"
    (initialState [] (newDB [None; None; Some (FaultOther "connection reset")]))
    (failedWriter (CommandError "connection reset")) 0
    eq_refl (fun H => ltac:(discriminate H)) eq_refl) as [_ [H1 [H2 _]]].
  split; [exact H1 | exact H2].
Defined.

(** C10.  The retry loop terminates.  [numRetriesLeft] starts at
    [DBTxnRetryCount] = 5 and every run of [handleFn] that asks for a retry
    found it positive and decremented it; so, for every handler, request and
    store, the request ends, with fuel for 6 iterations, and the handler was
    invoked at most [DBTxnRetryCount + 1] = 6 times. *)
Theorem retry_loop_terminates (h : Handle) (w0 : Sink) (req : Request)
    (db0 : DB) (fuel : nat) :
  (6 <= fuel)%nat ->
  DBTxnRetryCount = 5%Z
  /\ (forall body st,
        fst (handleFn h req body st) = true ->
        (0 < numRetriesLeft st)%Z
        /\ numRetriesLeft (snd (handleFn h req body st))
           = (numRetriesLeft st - 1)%Z)
  /\ exists st,
       WithDBSession fuel h w0 req db0 = Some st
       /\ (Z.of_nat (handlerRuns st) <= DBTxnRetryCount + 1)%Z
       /\ (handlerRuns st <= 6)%nat.
Proof.
  intros Hfuel. split; [reflexivity|]. split.
  - intros body st Hretry.
    destruct (handleFn_step h req body st) as [a [_ [Ht _]]].
    destruct (Ht Hretry) as [_ [_ [Hn [Hpos _]]]]. now split.
  - destruct (WithDBSession_spec h w0 req db0 fuel Hfuel)
      as [st [Hrun [_ [Hlen _]]]].
    exists st. split; [assumption|].
    pose proof (handlerRuns_le st). unfold DBTxnRetryCount. lia.
Qed.

(** With the store answering every attempt of a payment with a write
    conflict, the request still ends, after 6 invocations. *)
Lemma retry_loop_terminates_witness :
  exists st,
    WithDBSession 6 (paymentPOST decodeA) [] request (newDB (conflicts 10))
      = Some st
    /\ (Z.of_nat (handlerRuns st) <= DBTxnRetryCount + 1)%Z
    /\ (handlerRuns st <= 6)%nat.
Proof.
  exact (proj2 (proj2
    (retry_loop_terminates (paymentPOST decodeA) [] request
       (newDB (conflicts 10)) 6 (le_n 6)))).
Defined.

(* ================================================================== *)
(** ** Further properties of the ledger *)
(* ================================================================== *)

(** The errors [CreditUser] can return. *)
Lemma CreditUser_error_cases (sub txnID : string) (amount : float) (db : DB) :
  snd (CreditUser sub amount txnID db) = None
  \/ exists flt,
       IsDuplicateKeyError (Some (faultError flt)) = false
       /\ (snd (CreditUser sub amount txnID db)
             = Some (Context "failed to create user" (faultError flt))
           \/ snd (CreditUser sub amount txnID db)
             = Some (Context "failed to register txn" (faultError flt))).
Proof.
  unfold CreditUser.
  pose proof (InsertOne_outcome collUsers (User.marshal {| User.Sub := sub |}) db)
    as Hu.
  destruct (NewUser_insert sub db) as [Hdb He].
  destruct (NewUser sub db) as [db1 r]. cbn [fst snd] in *. cbv zeta.
  rewrite He.
  assert (Htxn : forall db1,
    (let (db2, r2) := NewTxn txnID sub amount db1 in
     if IsDuplicateKeyError (errOf r2) then (db2, None)
     else match errOf r2 with
          | Some e => (db2, Some (AddContext e "failed to register txn"))
          | None => (db2, None)
          end) = (fst (NewTxn txnID sub amount db1), None)
    \/ exists flt,
        (let (db2, r2) := NewTxn txnID sub amount db1 in
         if IsDuplicateKeyError (errOf r2) then (db2, None)
         else match errOf r2 with
              | Some e => (db2, Some (AddContext e "failed to register txn"))
              | None => (db2, None)
              end)
        = (fst (NewTxn txnID sub amount db1),
           Some (Context "failed to register txn" (faultError flt)))).
  { intros d. destruct (NewTxn_insert txnID sub amount d) as [_ He2].
    pose proof (InsertOne_outcome collTnxs
      (Txn.marshal {| Txn.ID := txnID; Txn.Sub := sub; Txn.Amount := amount |}) d)
      as Ht.
    destruct (NewTxn txnID sub amount d) as [d2 r2]. cbn [fst snd] in *.
    rewrite He2.
    destruct Ht as [d' flt _ | d' _ _ | d' _ _]; cbn [snd errOf].
    - right. exists flt. now rewrite faultError_not_duplicate.
    - now left.
    - now left. }
  destruct Hu as [d' flt _ | d' _ _ | d' _ _]; cbn [snd errOf].
  - right. exists flt. split; [apply faultError_not_duplicate|].
    rewrite faultError_not_duplicate. cbn. now left.
  - cbn. destruct (Htxn db1) as [-> | [flt ->]]; [now left|].
    right. exists flt. split; [apply faultError_not_duplicate | now right].
  - cbn. destruct (Htxn db1) as [-> | [flt ->]]; [now left|].
    right. exists flt. split; [apply faultError_not_duplicate | now right].
Qed.


(** X2.  Outside a transaction [CreditUser] is not atomic.  In a reachable
    state, when the user insert is answered and the transaction-record
    insert fails with anything but a duplicate key, [CreditUser] returns that
    failure under the context "failed to register txn", no transaction
    record is added, and the user record inserted first stays: undoing it is
    left to the enclosing transaction. *)
Theorem CreditUser_txn_failure_keeps_user (sub txnID : string) (amount : float)
    (db : DB) (flt : Fault) (fs : list (option Fault)) :
  reachable db ->
  faults db = None :: Some flt :: fs ->
  snd (CreditUser sub amount txnID db)
    = Some (Context "failed to register txn" (faultError flt))
  /\ users (staticDB (fst (CreditUser sub amount txnID db)))
     = users (staticDB db) ++ [userDoc sub (nextObjectID db)]
  /\ txns (staticDB (fst (CreditUser sub amount txnID db))) = txns (staticDB db).
Proof.
  intros Hr Hf. destruct (reachable_Inv db Hr) as [_ [_ [Hfresh _]]].
  assert (Hnew : hasID (bson.ObjectID (nextObjectID db)) (users (staticDB db))
                 = false).
  { apply hasID_false. intros Hin. apply in_map_iff in Hin.
    destruct Hin as [d [Hid Hd]]. exact (N.lt_irrefl _ (Hfresh d _ Hd Hid)). }
  set (mu := User.marshal {| User.Sub := sub |}).
  set (mt := Txn.marshal {| Txn.ID := txnID; Txn.Sub := sub; Txn.Amount := amount |}).
  assert (Hu : InsertOne collUsers mu db =
    (withDatabase (fst (call (OpInsertOne collUsers mu) (snd (ensureID mu db))))
       (setCollection (staticDB db) collUsers
          (users (staticDB db) ++ [userDoc sub (nextObjectID db)])),
     Ok (bson.ObjectID (nextObjectID db)))).
  { rewrite InsertOne_received.
    - cbv zeta. cbn [mu User.marshal ensureID fst snd bson._id]. unfold call.
      cbn [fst staticDB Collection]. now rewrite Hnew.
    - unfold call. cbn. now rewrite Hf. }
  unfold CreditUser, NewUser. fold mu. rewrite Hu. cbn [errOf fst snd].
  cbn [IsDuplicateKeyError negb]. unfold NewTxn. fold mt.
  rewrite (InsertOne_fault collTnxs mt _ flt).
  - cbn [errOf]. rewrite faultError_not_duplicate. cbn [fst snd].
    repeat split.
  - unfold call. cbn. now rewrite Hf.
Qed.

(** On the empty database, with the second call failing: the error comes
    back and the user record is there. *)
Lemma CreditUser_txn_failure_keeps_user_witness :
  users (staticDB (fst (CreditUser "userA" 10%float "tx1"
                          (newDB [None; Some (FaultOther "connection reset")]))))
  = [userDoc "userA" 0].
Proof.
  exact (proj1 (proj2 (CreditUser_txn_failure_keeps_user "userA" "tx1" 10%float
    (newDB [None; Some (FaultOther "connection reset")])
    (FaultOther "connection reset") [] (reach_new _) eq_refl))).
Defined.

Lemma recordsOf_snoc_other (sub sub' : string) (docs : list bson.doc) txnID amount :
  sub' <> sub ->
  recordsOf sub' (docs ++ [txnDoc txnID sub amount]) = recordsOf sub' docs.
Proof.
  intros Hne. unfold recordsOf. rewrite filter_app. simpl.
  unfold matchesSub. simpl.
  destruct (String.eqb sub sub') eqn:E.
  - apply String.eqb_eq in E. congruence.
  - apply app_nil_r.
Qed.

(** What [CreditUser] does to the transaction records when the store
    answers: it appends the record unless the id is recorded. *)
Lemma CreditUser_txns (sub txnID : string) (amount : float) (db : DB) :
  noFaults db ->
  noFaults (fst (CreditUser sub amount txnID db))
  /\ snd (CreditUser sub amount txnID db) = None
  /\ txns (staticDB (fst (CreditUser sub amount txnID db)))
     = if hasID (bson.idString txnID) (txns (staticDB db))
       then txns (staticDB db)
       else txns (staticDB db) ++ [txnDoc txnID sub amount].
Proof.
  intros Hn. destruct (hasID (bson.idString txnID) (txns (staticDB db))) eqn:E.
  - destruct (CreditUser_replay sub txnID amount db Hn E) as [_ [Hc [_ [Ht Hn']]]].
    rewrite Hc in *. now repeat split.
  - destruct (CreditUser_first sub txnID amount db Hn E) as [He [Ht Hn']].
    now repeat split.
Qed.

(** X3.  Crediting one sub leaves the balance of every other sub as it was
    (with the store answering every call). *)
Theorem CreditUser_other_balance (sub sub' txnID : string) (amount : float)
    (db : DB) :
  noFaults db ->
  sub' <> sub ->
  snd (UserBalance sub' (fst (CreditUser sub amount txnID db)))
  = snd (UserBalance sub' db).
Proof.
  intros Hn Hne. destruct (CreditUser_txns sub txnID amount db Hn) as [Hn' [_ Ht]].
  rewrite (UserBalance_noFaults sub' _ Hn'), (UserBalance_noFaults sub' db Hn).
  cbn [snd]. unfold credited, spent. rewrite Ht.
  destruct (hasID _ _); [reflexivity|].
  now rewrite (recordsOf_snoc_other sub sub' _ txnID amount Hne).
Qed.

Lemma CreditUser_other_balance_witness :
  snd (UserBalance "userB" (fst (CreditUser "userA" 10%float "tx1" (newDB []))))
  = snd (UserBalance "userB" (newDB [])).
Proof.
  exact (CreditUser_other_balance "userA" "userB" "tx1" 10%float (newDB [])
           (Forall_nil _) (fun H => ltac:(discriminate H))).
Defined.

Lemma hasID_snoc_other (id id' sub : string) (amount : float) docs :
  id' <> id ->
  hasID (bson.idString id') (docs ++ [txnDoc id sub amount])
  = hasID (bson.idString id') docs.
Proof.
  intros Hne. unfold hasID. rewrite existsb_app. simpl.
  destruct (String.eqb id id') eqn:E.
  - apply String.eqb_eq in E. congruence.
  - now rewrite !orb_false_r.
Qed.

(** X4.  No payment is lost.  Crediting one sub for a list of payments
    whose txnIDs are distinct and not yet recorded, with the store answering
    every call: every call returns nil, the transaction records of the
    payments are appended in order, and the balance is the credited sum with
    every amount added, less what was spent. *)
Theorem CreditAll_no_lost_update (sub : string) (payments : list (string * float))
    (db : DB) :
  noFaults db ->
  NoDup (map fst payments) ->
  (forall id, In id (map fst payments) ->
     hasID (bson.idString id) (txns (staticDB db)) = false) ->
  Forall (fun e => e = None) (snd (CreditAll sub payments db))
  /\ noFaults (fst (CreditAll sub payments db))
  /\ txns (staticDB (fst (CreditAll sub payments db)))
     = txns (staticDB db)
       ++ map (fun p => txnDoc (fst p) sub (snd p)) payments
  /\ snd (UserBalance sub (fst (CreditAll sub payments db)))
     = Ok (PrimFloat.sub
             (fold_left (fun acc p => PrimFloat.add acc (snd p)) payments
                        (credited sub (staticDB db)))
             (spent sub (staticDB db))).
Proof.
  revert db. induction payments as [|[id a] rest IH]; intros db Hn Hnd Hfresh.
  - cbn. rewrite app_nil_r. repeat split; auto.
    now rewrite (UserBalance_noFaults sub db Hn).
  - cbn [map fst] in Hnd. inversion Hnd as [|x l Hnotin Hnd']; subst.
    assert (Hid : hasID (bson.idString id) (txns (staticDB db)) = false)
      by (apply Hfresh; now left).
    destruct (CreditUser_first sub id a db Hn Hid) as [He [Ht Hn1]].
    cbn [CreditAll]. destruct (CreditUser sub a id db) as [db1 e] eqn:E.
    cbn [fst snd] in *. subst e.
    assert (Hfresh1 : forall id', In id' (map fst rest) ->
              hasID (bson.idString id') (txns (staticDB db1)) = false).
    { intros id' Hin. rewrite Ht. rewrite hasID_snoc_other.
      - apply Hfresh. now right.
      - intros ->. contradiction. }
    destruct (IH db1 Hn1 Hnd' Hfresh1) as [Hall [Hn2 [Ht2 Hb]]].
    destruct (CreditAll sub rest db1) as [db2 errs]. cbn [fst snd] in *.
    split; [now constructor|]. split; [assumption|]. split.
    + rewrite Ht2, Ht, <- app_assoc. reflexivity.
    + rewrite Hb. cbn [fold_left snd].
      destruct (credited_snoc sub (staticDB db) _ id a eq_refl) as [Hc Hs].
      unfold credited at 1, spent at 1. rewrite Ht, Hc, Hs. reflexivity.
Qed.

(** Three payments of 10, 5 and 2.5 credits: the balance is 17.5. *)
Lemma CreditAll_no_lost_update_witness :
  snd (UserBalance "userA"
         (fst (CreditAll "userA"
                 [("tx1", 10%float); ("tx2", 5%float); ("tx3", 2.5%float)]
                 (newDB []))))
  = Ok 17.5%float.
Proof.
  refine (proj2 (proj2 (proj2
    (CreditAll_no_lost_update "userA"
       [("tx1", 10%float); ("tx2", 5%float); ("tx3", 2.5%float)] (newDB [])
       (Forall_nil _) _ (fun id _ => eq_refl))))).
  repeat constructor; simpl; intuition discriminate.
Defined.

(** X5.  [UserBalance] under failures.  When the first aggregation fails,
    [UserBalance] returns that failure under the context "failed to calculate
    the total amount of credit" and the second aggregation is not sent; when
    the first is answered and the second fails, it returns the failure under
    "failed to calculate the total amount spent".  In both cases no balance
    is returned and the collections are as they were. *)
Theorem UserBalance_failure (sub : string) (db : DB) (flt : Fault)
    (fs : list (option Fault)) :
  (faults db = Some flt :: fs ->
   snd (UserBalance sub db)
     = Err (Context "failed to calculate the total amount of credit"
                    (faultError flt))
   /\ ops (fst (UserBalance sub db)) = ops db ++ [OpAggregate collTnxs]
   /\ staticDB (fst (UserBalance sub db)) = staticDB db)
  /\ (faults db = None :: Some flt :: fs ->
      snd (UserBalance sub db)
        = Err (Context "failed to calculate the total amount spent"
                       (faultError flt))
      /\ ops (fst (UserBalance sub db))
         = ops db ++ [OpAggregate collTnxs; OpAggregate collTnxs]
      /\ staticDB (fst (UserBalance sub db)) = staticDB db).
Proof.
  split; intros Hf.
  - unfold UserBalance, userCredit, Aggregate, call. rewrite Hf. cbn.
    repeat split.
  - unfold UserBalance.
    assert (Hc : userCredit sub db =
      (fst (call (OpAggregate collTnxs) db), Ok (credited sub (staticDB db)))).
    { unfold userCredit, Aggregate, call. rewrite Hf. cbn [fst snd tl staticDB].
      pose proof (decode_matchGroupSum sub "credit" "amount" (txns (staticDB db)))
        as Hd.
      unfold credited. cbn [Collection].
      destruct (matchGroupSum sub "credit" "amount" (txns (staticDB db)))
        as [|d l].
      - now injection Hd as <-.
      - now rewrite Hd. }
    rewrite Hc. unfold userSpent, Aggregate, call. cbn [fst snd faults].
    rewrite Hf. cbn. rewrite <- app_assoc. repeat split.
Qed.

Lemma UserBalance_failure_witness :
  snd (UserBalance "userA" (newDB [Some FaultWriteConflict]))
    = Err (Context "failed to calculate the total amount of credit"
                   (Mongo WriteConflict))
  /\ snd (UserBalance "userA" (newDB [None; Some (FaultOther "timeout")]))
    = Err (Context "failed to calculate the total amount spent"
                   (Mongo (CommandError "timeout"))).
Proof.
  split.
  - exact (proj1 (proj1 (UserBalance_failure "userA"
             (newDB [Some FaultWriteConflict]) FaultWriteConflict [])
             eq_refl)).
  - exact (proj1 (proj2 (UserBalance_failure "userA"
             (newDB [None; Some (FaultOther "timeout")]) (FaultOther "timeout") [])
             eq_refl)).
Defined.

(* ================================================================== *)
(** ** Further properties of the handlers *)
(* ================================================================== *)

Lemma float_pos_not_le (c : float) :
  PrimFloat.ltb PrimFloat.zero c = true ->
  PrimFloat.leb c PrimFloat.zero = false.
Proof.
  rewrite FloatAxioms.ltb_spec, FloatAxioms.leb_spec.
  change (Prim2SF PrimFloat.zero) with (S754_zero false).
  destruct (Prim2SF c) as [[|]| [|] | | [|] m e]; cbn; congruence.
Qed.

Lemma string_eqb_empty (s : string) : String.eqb s "" = false <-> s <> "".
Proof.
  split.
  - intros H ->. discriminate.
  - intros H. destruct (String.eqb s "") eqn:E; [|reflexivity].
    apply String.eqb_eq in E. contradiction.
Qed.

(** X6.  What [Validate] accepts and what it reports.  A payment is accepted
    exactly when its credits are not <= 0 and its sub and txnID are not
    empty; in particular every payment with credits > 0 and non-empty sub and
    txnID is.  The checks are made in this order, so a payment with several
    defects is reported for its credits first, then for its sub. *)
Theorem Validate_cases (p : PaymentPOST.t) :
  (Validate p = None <->
     PrimFloat.leb (PaymentPOST.Credits p) PrimFloat.zero = false
     /\ PaymentPOST.Sub p <> "" /\ PaymentPOST.TxnID p <> "")
  /\ (PrimFloat.ltb PrimFloat.zero (PaymentPOST.Credits p) = true ->
      PaymentPOST.Sub p <> "" -> PaymentPOST.TxnID p <> "" ->
      Validate p = None)
  /\ (PrimFloat.leb (PaymentPOST.Credits p) PrimFloat.zero = true ->
      Validate p = Some (New "non-positive credits amount"))
  /\ (PrimFloat.leb (PaymentPOST.Credits p) PrimFloat.zero = false ->
      PaymentPOST.Sub p = "" ->
      Validate p = Some (New "missing or empty sub"))
  /\ (PrimFloat.leb (PaymentPOST.Credits p) PrimFloat.zero = false ->
      PaymentPOST.Sub p <> "" -> PaymentPOST.TxnID p = "" ->
      Validate p = Some (New "missing or empty txn ID")).
Proof.
  assert (Hiff : Validate p = None <->
     PrimFloat.leb (PaymentPOST.Credits p) PrimFloat.zero = false
     /\ PaymentPOST.Sub p <> "" /\ PaymentPOST.TxnID p <> "").
  { unfold Validate. rewrite <- !string_eqb_empty.
    destruct (PrimFloat.leb _ _); [split; [discriminate | intros [H _]; discriminate]|].
    destruct (String.eqb (PaymentPOST.Sub p) "");
      [split; [discriminate | intros [_ [H _]]; discriminate]|].
    destruct (String.eqb (PaymentPOST.TxnID p) "");
      [split; [discriminate | intros [_ [_ H]]; discriminate]|].
    now repeat split. }
  split; [exact Hiff|]. split.
  { intros Hc Hs Ht. apply Hiff. split; [now apply float_pos_not_le | now split]. }
  unfold Validate. split; [intros ->; reflexivity|]. split.
  - intros -> ->. reflexivity.
  - intros -> Hs ->. apply string_eqb_empty in Hs. now rewrite Hs.
Qed.

(** The payment of Scenario A is accepted; one with neither credits nor a
    sub is reported for its credits. *)
Lemma Validate_cases_witness :
  Validate paymentA = None
  /\ Validate {| PaymentPOST.TxnID := "tx9"; PaymentPOST.Sub := "";
                 PaymentPOST.Credits := 0%float |}
     = Some (New "non-positive credits amount").
Proof.
  split.
  - exact (proj1 (proj2 (Validate_cases paymentA)) eq_refl
             (fun H => ltac:(discriminate H)) (fun H => ltac:(discriminate H))).
  - exact (proj1 (proj2 (proj2 (Validate_cases
             {| PaymentPOST.TxnID := "tx9"; PaymentPOST.Sub := "";
                PaymentPOST.Credits := 0%float |}))) eq_refl).
Defined.

(** X7.  The answers of [paymentPOST] to a request with a body.  The
    request gets exactly one status, 204, 400 or 500.  A body that does not
    decode is answered 400 under the context "failed to parse body".  With
    400 the database is untouched.  500 carries the failure of a store call
    that [CreditUser] returned, never a duplicate key, and is not given while
    the store answers every call.  204 is given if and only if the body
    decodes to a valid payment that [CreditUser] accepted, and then the
    database is the one [CreditUser] left. *)
Theorem paymentPOST_answers jsonDecode (req : Request) (db : DB)
    (read : result string) :
  Body req = Some read ->
  exists code,
    statuses (fst (paymentPOST jsonDecode req db)) = [code]
    /\ (code = 204 \/ code = 400 \/ code = 500)%Z
    /\ (forall b err, read = Ok b -> jsonDecode b = Err err ->
        paymentPOST jsonDecode req db
        = (WriteError (Context "failed to parse body" err) 400, db))
    /\ (code = 400%Z -> snd (paymentPOST jsonDecode req db) = db)
    /\ (code = 500%Z ->
        exists ctx flt,
          fst (paymentPOST jsonDecode req db)
          = WriteError (Context ctx (faultError flt)) 500)
    /\ (noFaults db -> code <> 500%Z)
    /\ (code = 204%Z <->
        exists p,
          match read with Ok b => jsonDecode b | Err err => Err err end = Ok p
          /\ Validate p = None
          /\ snd (CreditUser (PaymentPOST.Sub p) (PaymentPOST.Credits p)
                             (PaymentPOST.TxnID p) db) = None)
    /\ (code = 204%Z ->
        exists p,
          Validate p = None
          /\ paymentPOST jsonDecode req db
             = (WriteSuccess,
                fst (CreditUser (PaymentPOST.Sub p) (PaymentPOST.Credits p)
                                (PaymentPOST.TxnID p) db))
          /\ snd (CreditUser (PaymentPOST.Sub p) (PaymentPOST.Credits p)
                             (PaymentPOST.TxnID p) db) = None).
Proof.
  intros Hb.
  assert (Hdec : forall b err, read = Ok b -> jsonDecode b = Err err ->
        paymentPOST jsonDecode req db
        = (WriteError (Context "failed to parse body" err) 400, db)).
  { intros b err -> Hd. unfold paymentPOST. now rewrite Hb, Hd. }
  unfold paymentPOST in *. rewrite Hb in *.
  destruct (match read with
            | Ok b => jsonDecode b
            | Err err => Err err
            end) as [p|e].
  2:{ exists 400%Z. cbn. repeat split; auto; try discriminate.
      intros [p [H _]]. discriminate. }
  destruct (Validate p) as [e|] eqn:Hv.
  { exists 400%Z. cbn. repeat split; auto; try discriminate.
    intros [q [H [Hq _]]]. injection H as <-. congruence. }
  pose proof (CreditUser_error_cases (PaymentPOST.Sub p) (PaymentPOST.TxnID p)
                (PaymentPOST.Credits p) db) as Herr.
  pose proof (CreditUser_txns (PaymentPOST.Sub p) (PaymentPOST.TxnID p)
                (PaymentPOST.Credits p) db) as Hok.
  destruct (CreditUser (PaymentPOST.Sub p) (PaymentPOST.Credits p)
                       (PaymentPOST.TxnID p) db) as [db1 [e|]] eqn:E;
    cbn [fst snd] in *.
  - exists 500%Z. cbn. split; [reflexivity|]. split; [auto|].
    split; [assumption|]. split; [discriminate|]. split.
    + intros _. destruct Herr as [H | [flt [_ [H | H]]]]; try discriminate;
        injection H as ->; eauto.
    + split.
      * intros Hn _. destruct (Hok Hn) as [_ [H _]]. discriminate.
      * split; [|discriminate]. split; [discriminate|].
        intros [q [H [_ Hq]]]. injection H as <-. rewrite E in Hq.
        discriminate.
  - exists 204%Z. cbn. split; [reflexivity|]. split; [auto|].
    split; [assumption|]. split; [discriminate|]. split; [discriminate|].
    split; [discriminate|]. split.
    + split; [|reflexivity]. intros _. exists p. now rewrite E.
    + intros _. exists p. now rewrite E.
Qed.

(** The payment of Scenario A on the empty database is answered 204. *)
Lemma paymentPOST_answers_witness :
  exists code,
    statuses (fst (paymentPOST decodeA request (newDB []))) = [code]
    /\ (code = 204 \/ code = 400 \/ code = 500)%Z.
Proof.
  destruct (paymentPOST_answers decodeA request (newDB []) (Ok "{}") eq_refl)
    as [code [H1 [H2 _]]].
  exists code. split; assumption.
Defined.

(** X8.  The health endpoint.  [healthGET] always answers with status 200
    and a JSON body whose [dbAlive] says whether the ping of the store was
    answered: a failing store is reported in the body, not in the status.  It
    reads and writes no collection and starts no session. *)
Theorem healthGET_answers (req : Request) (db : DB) (w0 : Sink) :
  let alive := match faults db with Some _ :: _ => false | _ => true end in
  statuses (fst (healthGET req db)) = [200%Z]
  /\ serve (fst (healthGET req db)) w0
     = w0 ++ [HeaderSet "Content-Type" "application/json; charset=utf-8";
              WriteHeader 200; Write [HealthGET alive]]
  /\ staticDB (snd (healthGET req db)) = staticDB db
  /\ ops (snd (healthGET req db)) = ops db.
Proof.
  cbv zeta. rewrite serve_Sink. unfold healthGET, DBHealth, Ping.
  destruct (faults db) as [|[flt|] fs]; cbn; repeat split.
Qed.

(* ================================================================== *)
(** ** Further properties of the retry wrapper *)
(* ================================================================== *)

(** The attempts the loop retried were all made while the request context
    was live. *)
Lemma retryLoop_live (h : Handle) (req : Request) (body : string)
    (fuel : nat) (st st' : State) :
  retryLoop fuel h req body st = Some st' ->
  exists pre a,
    attempts st' = attempts st ++ pre ++ [a]
    /\ forall i, (i < List.length pre)%nat ->
         Done req (List.length (attempts st) + i) = false.
Proof.
  revert st. induction fuel as [|fuel IH]; intros st Hl; [discriminate|].
  cbn [retryLoop] in Hl. destruct (handleFn_step h req body st) as [a [Ha [Ht _]]].
  destruct (handleFn h req body st) as [retry st1]. cbn [fst snd] in *.
  destruct retry.
  - destruct (Ht eq_refl) as [_ [_ [_ [_ [HD _]]]]].
    destruct (IH st1 Hl) as [pre [b [Hat Hlive]]].
    exists (a :: pre), b. split.
    { rewrite Hat, Ha, <- app_assoc. reflexivity. }
    intros [|i] Hi.
    + now rewrite Nat.add_0_r.
    + cbn [List.length] in Hi. specialize (Hlive i ltac:(lia)).
      rewrite Ha, length_app in Hlive. cbn [List.length] in Hlive.
      now replace (List.length (attempts st) + S i)%nat
        with (List.length (attempts st) + 1 + i)%nat by lia.
  - injection Hl as <-. exists [], a. split; [assumption|].
    intros i Hi. cbn in Hi. lia.
Qed.

(** X9.  Failures before the handler.  A body that cannot be read is
    answered 400 under the context "failed to read body": the sink receives
    the JSON content type, the status line 400 and the error as the body; no
    session is started, no attempt is made and the database is left as it
    was.  A session that cannot be started is answered 500 under "failed to
    start a new mongo session", in the same three calls and as one response:
    the handler is not run and the request is not retried, whatever the
    failure, a write conflict included. *)
Theorem WithDBSession_fails_before_handler (h : Handle) (w0 : Sink)
    (req : Request) (db0 : DB) (fuel : nat) :
  (forall err, Body req = Some (Err err) ->
     WithDBSession fuel h w0 req db0
     = Some {| w := w0 ++ [HeaderSet "Content-Type"
                                     "application/json; charset=utf-8";
                           WriteHeader 400;
                           Write [errorWrap (Context "failed to read body" err)]];
               db := db0; numRetriesLeft := DBTxnRetryCount; attempts := [] |})
  /\ (forall flt fs, readable req -> faults db0 = Some flt :: fs ->
      exists st,
        WithDBSession (S fuel) h w0 req db0 = Some st
        /\ attempts st = [SessionFailed (faultError flt)]
        /\ handlerRuns st = 0%nat
        /\ w st = w0 ++ WriteError
                    (Context "failed to start a new mongo session"
                             (faultError flt)) 500
        /\ staticDB (db st) = staticDB db0
        /\ ops (db st) = ops db0 ++ [OpStartSession]
        /\ w st = w0 ++ [HeaderSet "Content-Type"
                                   "application/json; charset=utf-8";
                         WriteHeader 500;
                         Write [errorWrap
                                  (Context "failed to start a new mongo session"
                                           (faultError flt))]]
        /\ responses (w st) = S (responses w0)).
Proof.
  split.
  - intros err Hb. unfold WithDBSession. rewrite Hb, serve_Sink. reflexivity.
  - intros flt fs Hr Hf. unfold WithDBSession, readable in *.
    assert (Hgo : forall body,
      retryLoop (S fuel) h req body
        {| w := w0; db := db0; numRetriesLeft := DBTxnRetryCount; attempts := [] |}
      = Some {| w := w0 ++ WriteError
                        (Context "failed to start a new mongo session"
                                 (faultError flt)) 500;
                db := fst (call OpStartSession db0);
                numRetriesLeft := DBTxnRetryCount;
                attempts := [SessionFailed (faultError flt)] |}).
    { intros body. cbn [retryLoop]. unfold handleFn, NewSession, call.
      cbn [db w attempts numRetriesLeft]. rewrite Hf. cbn [fst snd app].
      rewrite serve_Sink. reflexivity. }
    destruct (Body req) as [[b|e]|]; [| destruct Hr |];
      eexists; (split; [apply Hgo|]); cbn [attempts w db];
      (split; [reflexivity|]); (split; [reflexivity|]);
      (split; [reflexivity|]); (split; [reflexivity|]);
      (split; [reflexivity|]); (split; [reflexivity|]);
      rewrite responses_app; cbn; lia.
Qed.

(** The store refuses the session with a write conflict: one attempt, one
    500, the handler not run. *)
Lemma WithDBSession_fails_before_handler_witness :
  exists st,
    WithDBSession 1 (paymentPOST decodeA) [] request
      (newDB [Some FaultWriteConflict]) = Some st
    /\ attempts st = [SessionFailed (faultError FaultWriteConflict)]
    /\ handlerRuns st = 0%nat.
Proof.
  destruct (proj2 (WithDBSession_fails_before_handler (paymentPOST decodeA) []
                     request (newDB [Some FaultWriteConflict]) 0)
              FaultWriteConflict [] I eq_refl) as [st [H1 [H2 [H3 _]]]].
  exists st. now repeat split.
Defined.

(** X10.  The request context bounds the retries.  If the context is done
    when the attempt of index k (counting from 0) has failed with a write
    conflict, no further attempt is made: the request ends within k + 1
    attempts, however many retries are left. *)
Theorem deadline_stops_retries (h : Handle) (w0 : Sink) (req : Request)
    (db0 : DB) (fuel k : nat) :
  (6 <= fuel)%nat ->
  Done req k = true ->
  exists st,
    WithDBSession fuel h w0 req db0 = Some st
    /\ (List.length (attempts st) <= S k)%nat
    /\ (handlerRuns st <= S k)%nat.
Proof.
  intros Hfuel HD.
  destruct (WithDBSession_spec h w0 req db0 fuel Hfuel) as [st [Hrun _]].
  exists st. split; [assumption|].
  assert (Hlen : (List.length (attempts st) <= S k)%nat).
  { unfold WithDBSession in Hrun.
    assert (Hgo : forall body,
      retryLoop fuel h req body
        {| w := w0; db := db0; numRetriesLeft := DBTxnRetryCount; attempts := [] |}
      = Some st -> (List.length (attempts st) <= S k)%nat).
    { intros body Hl. destruct (retryLoop_live h req body fuel _ st Hl)
        as [pre [a [Hat Hlive]]].
      cbn [attempts app List.length Nat.add] in Hat, Hlive.
      rewrite Hat, length_app. cbn [List.length].
      destruct (Nat.lt_ge_cases k (List.length pre)) as [Hlt | Hge]; [|lia].
      rewrite (Hlive k Hlt) in HD. discriminate. }
    destruct (Body req) as [[b|e]|].
    - exact (Hgo b Hrun).
    - injection Hrun as <-. cbn. lia.
    - exact (Hgo "" Hrun). }
  split; [assumption|].
  pose proof (handlerRuns_le st). lia.
Qed.

(** Against a store that answers every attempt with a write conflict, a
    request whose context is done from the start is tried once. *)
Lemma deadline_stops_retries_witness :
  exists st,
    WithDBSession 6 (paymentPOST decodeA) []
      {| Body := Some (Ok "{}"); Done := fun _ => true |}
      (newDB (conflicts 6)) = Some st
    /\ (List.length (attempts st) <= 1)%nat
    /\ (handlerRuns st <= 1)%nat.
Proof.
  exact (deadline_stops_retries (paymentPOST decodeA) []
           {| Body := Some (Ok "{}"); Done := fun _ => true |}
           (newDB (conflicts 6)) 6 0 (le_n 6) eq_refl).
Defined.

(** X11.  A valid payment against a store that answers every call.  The
    request is served in one attempt and no retry is counted: the wrapper
    starts a session and a transaction, the handler sends the user insert and
    the transaction-record insert and records status 204 and no error, and
    the unit of work is committed (the commit as the specification describes
    it).  Afterwards the ledger holds the payment: its record was appended,
    unless a record with its id was there. *)
Theorem payment_request_recorded jsonDecode (w0 : Sink) (req : Request)
    (db0 : DB) (fuel : nat) (b : string) (p : PaymentPOST.t) :
  noFaults db0 ->
  Body req = Some (Ok b) ->
  jsonDecode b = Ok p ->
  Validate p = None ->
  exists st mw,
    WithDBSession (S fuel) (paymentPOST jsonDecode) w0 req db0 = Some st
    /\ attempts st = [Ran mw]
    /\ recordedStatus mw = 204%Z
    /\ ErrorStatus mw = 0%Z
    /\ numRetriesLeft st = DBTxnRetryCount
    /\ txns (staticDB (db st))
       = (if hasID (bson.idString (PaymentPOST.TxnID p)) (txns (staticDB db0))
          then txns (staticDB db0)
          else txns (staticDB db0)
                 ++ [txnDoc (PaymentPOST.TxnID p) (PaymentPOST.Sub p)
                            (PaymentPOST.Credits p)])
    /\ ops (db st)
       = ops db0
           ++ [OpStartSession; OpStartTransaction;
               OpInsertOne collUsers
                 (User.marshal {| User.Sub := PaymentPOST.Sub p |});
               OpInsertOne collTnxs
                 (Txn.marshal {| Txn.ID := PaymentPOST.TxnID p;
                                 Txn.Sub := PaymentPOST.Sub p;
                                 Txn.Amount := PaymentPOST.Credits p |});
               OpCommit].
Proof.
  intros Hn Hb Hd Hv.
  destruct (call_noFaults OpStartSession db0 Hn) as [Hc1 Hn1].
  destruct (call_fst OpStartSession db0) as [Hs1 [_ [_ Ho1]]].
  set (db1 := fst (call OpStartSession db0)) in *.
  destruct (call_noFaults OpStartTransaction db1 Hn1) as [Hc2 Hn2].
  destruct (call_fst OpStartTransaction db1) as [Hs2 [_ [_ Ho2]]].
  set (db2 := fst (call OpStartTransaction db1)) in *.
  destruct (CreditUser_txns (PaymentPOST.Sub p) (PaymentPOST.TxnID p)
              (PaymentPOST.Credits p) db2 Hn2) as [_ [He Ht]].
  pose proof (CreditUser_ops (PaymentPOST.Sub p) (PaymentPOST.TxnID p)
                (PaymentPOST.Credits p) db2 Hn2) as Ho.
  unfold WithDBSession. rewrite Hb. cbn [retryLoop]. unfold handleFn.
  cbn [db w attempts numRetriesLeft]. unfold NewSession.
  rewrite (surjective_pairing (call OpStartSession db0)), Hc1. fold db1.
  unfold NewMongoWriter, StartTransaction.
  rewrite (surjective_pairing (call OpStartTransaction db1)), Hc2. fold db2.
  unfold paymentPOST. cbn [Body]. rewrite Hd, Hv.
  set (cu := CreditUser (PaymentPOST.Sub p) (PaymentPOST.Credits p)
               (PaymentPOST.TxnID p) db2) in *.
  clearbody cu db2 db1. destruct cu as [db3 e]. cbn [fst snd] in *. subst e.
  cbn. eexists. eexists. split; [reflexivity|]. cbn.
  split; [reflexivity|]. split; [reflexivity|]. split; [reflexivity|].
  split; [reflexivity|]. split.
  - rewrite Ht, Hs2, Hs1. reflexivity.
  - rewrite Ho, Ho2, Ho1, <- !app_assoc. reflexivity.
Qed.

(** The payment of Scenario A on the empty database. *)
Lemma payment_request_recorded_witness :
  exists st mw,
    WithDBSession 1 (paymentPOST decodeA) [] request (newDB []) = Some st
    /\ attempts st = [Ran mw]
    /\ recordedStatus mw = 204%Z
    /\ txns (staticDB (db st)) = [txnDoc "tx1" "userA" 10%float].
Proof.
  destruct (payment_request_recorded decodeA [] request (newDB []) 0 "{}"
              paymentA (Forall_nil _) eq_refl eq_refl eq_refl)
    as [st [mw [H1 [H2 [H3 [_ [_ [H4 _]]]]]]]].
  exists st, mw. repeat split; assumption.
Defined.

(* ================================================================== *)
(** ** Further properties of the start-up *)
(* ================================================================== *)

Section Config.

Import main.

Variable LookupEnv : string -> option string.
Variable ParseLevel : string -> result N.

(** X12.  What [parseConfig] returns.  It returns the configuration [cfg]
    exactly when the six required variables are set, each field holding the
    value of its variable (an empty value counts as set), and the log level
    is the parsed PROMOTER_LOG_LEVEL, or InfoLevel when that variable is not
    set.  So the defaults "10.10.10.70" and "3000" of the accounts host and
    port are never what is returned without the environment saying so, and
    the port is 0 whatever the environment. *)
Theorem parseConfig_ok (cfg : config) :
  parseConfig LookupEnv ParseLevel = Ok cfg
  <-> (match LookupEnv envLogLevel with
       | Some v => ParseLevel v = Ok (LogLevel cfg)
       | None => LogLevel cfg = InfoLevel
       end
       /\ Port cfg = 0%Z
       /\ LookupEnv envMongoDBURI = Some (DBURI cfg)
       /\ LookupEnv envMongoDBUser = Some (DBUser cfg)
       /\ LookupEnv envMongoDBPassword = Some (DBPassword cfg)
       /\ LookupEnv envServerDomain = Some (ServerDomain cfg)
       /\ LookupEnv envAccountsHost = Some (AccountsHost cfg)
       /\ LookupEnv envAccountsPort = Some (AccountsPort cfg)).
Proof.
  unfold parseConfig. split.
  - intros H.
    destruct (LookupEnv envLogLevel) as [v|];
      [destruct (ParseLevel v) as [l|e]; [|discriminate]|];
      (destruct (LookupEnv envMongoDBURI); [|discriminate];
       destruct (LookupEnv envMongoDBUser); [|discriminate];
       destruct (LookupEnv envMongoDBPassword); [|discriminate];
       destruct (LookupEnv envServerDomain); [|discriminate];
       destruct (LookupEnv envAccountsHost); [|discriminate];
       destruct (LookupEnv envAccountsPort); [|discriminate];
       injection H as <-; cbn; repeat split).
  - destruct cfg as [l p u1 u2 u3 u4 u5 u6]. cbn [LogLevel Port DBURI DBUser
      DBPassword ServerDomain AccountsHost AccountsPort].
    intros [Hl [-> [-> [-> [-> [-> [-> ->]]]]]]].
    destruct (LookupEnv envLogLevel) as [v|].
    + rewrite Hl. reflexivity.
    + rewrite Hl. reflexivity.
Qed.

(** X13.  The errors of [parseConfig], in the order of the source.  A log
    level that is set and does not parse is reported first, under the context
    "failed to parse log level", whatever else is missing.  Otherwise the
    error names the first of the required variables, in the order
    MONGODB_URI, MONGODB_USER, MONGODB_PASSWORD, SERVER_DOMAIN,
    ACCOUNTS_HOST, ACCOUNTS_PORT, that is not set. *)
Theorem parseConfig_errors :
  (forall v err,
     LookupEnv envLogLevel = Some v -> ParseLevel v = Err err ->
     parseConfig LookupEnv ParseLevel
     = Err (Context "failed to parse log level" err))
  /\ (forall env,
        (forall v, LookupEnv envLogLevel = Some v ->
                   exists l, ParseLevel v = Ok l) ->
        find (fun e => match LookupEnv e with None => true | Some _ => false end)
             required = Some env ->
        parseConfig LookupEnv ParseLevel
        = Err (New (env ++ " wasn't specified"))).
Proof.
  unfold parseConfig, required. split.
  - intros v err -> ->. reflexivity.
  - intros env Hl Hf.
    assert (Hlev : exists c,
      match LookupEnv envLogLevel with
      | Some logLevelStr =>
          match ParseLevel logLevelStr with
          | Ok l => Ok (withLogLevel
                          {| LogLevel := InfoLevel; Port := 0; DBURI := "";
                             DBUser := ""; DBPassword := ""; ServerDomain := "";
                             AccountsHost := "10.10.10.70";
                             AccountsPort := "3000" |} l)
          | Err err => Err (AddContext err "failed to parse log level")
          end
      | None => Ok {| LogLevel := InfoLevel; Port := 0; DBURI := "";
                      DBUser := ""; DBPassword := ""; ServerDomain := "";
                      AccountsHost := "10.10.10.70"; AccountsPort := "3000" |}
      end = Ok c).
    { destruct (LookupEnv envLogLevel) as [v|]; [|eauto].
      destruct (Hl v eq_refl) as [l ->]. eauto. }
    destruct Hlev as [c ->]. cbn [find] in Hf.
    destruct (LookupEnv envMongoDBURI); [|now injection Hf as <-].
    destruct (LookupEnv envMongoDBUser); [|now injection Hf as <-].
    destruct (LookupEnv envMongoDBPassword); [|now injection Hf as <-].
    destruct (LookupEnv envServerDomain); [|now injection Hf as <-].
    destruct (LookupEnv envAccountsHost); [|now injection Hf as <-].
    destruct (LookupEnv envAccountsPort); [|now injection Hf as <-].
    discriminate.
Qed.

End Config.

(** An environment that sets the database variables only: the error names
    SERVER_DOMAIN, the first variable missing. *)
Lemma parseConfig_errors_witness :
  main.parseConfig
    (fun e => if existsb (String.eqb e)
                   ["MONGODB_URI"; "MONGODB_USER"; "MONGODB_PASSWORD"]
              then Some "x" else None)
    (fun _ => Err (New "not a valid logrus Level"))
  = Err (New "SERVER_DOMAIN wasn't specified").
Proof.
  apply (proj2 (parseConfig_errors
    (fun e => if existsb (String.eqb e)
                   ["MONGODB_URI"; "MONGODB_USER"; "MONGODB_PASSWORD"]
              then Some "x" else None)
    (fun _ => Err (New "not a valid logrus Level"))) "SERVER_DOMAIN").
  - intros v H. discriminate H.
  - reflexivity.
Defined.

(** An environment that sets every variable to "x" and no log level. *)
Lemma parseConfig_ok_witness :
  main.parseConfig
    (fun e => if String.eqb e "PROMOTER_LOG_LEVEL" then None else Some "x")
    (fun _ => Err (New "not a valid logrus Level"))
  = Ok {| main.LogLevel := main.InfoLevel; main.Port := 0;
          main.DBURI := "x"; main.DBUser := "x"; main.DBPassword := "x";
          main.ServerDomain := "x"; main.AccountsHost := "x";
          main.AccountsPort := "x" |}.
Proof.
  apply (proj2 (parseConfig_ok
    (fun e => if String.eqb e "PROMOTER_LOG_LEVEL" then None else Some "x")
    (fun _ => Err (New "not a valid logrus Level")) _)).
  cbn. repeat split.
Defined.

Section Schema.

Import dbschema.

Lemma keys_eqb_eq (a b : list (string * Z)) : keys_eqb a b = true <-> a = b.
Proof.
  revert b. induction a as [|[k d] a IH]; intros [|[k' d'] b]; cbn;
    try (split; [discriminate | discriminate]); [now split|].
  rewrite !andb_true_iff, String.eqb_eq, Z.eqb_eq, IH.
  split.
  - intros [[-> ->] ->]. reflexivity.
  - intros H. injection H as -> -> ->. now repeat split.
Qed.

Lemma IndexModel_eqb_eq (a b : IndexModel) : IndexModel_eqb a b = true <-> a = b.
Proof.
  unfold IndexModel_eqb.
  rewrite !andb_true_iff, keys_eqb_eq, String.eqb_eq, Bool.eqb_true_iff.
  destruct a, b; cbn. split.
  - intros [[-> ->] ->]. reflexivity.
  - intros H. injection H as -> -> ->. now repeat split.
Qed.

Lemma existsb_IndexModel_eqb (m : IndexModel) (ixs : list IndexModel) :
  existsb (IndexModel_eqb m) ixs = true <-> In m ixs.
Proof.
  rewrite existsb_exists. split.
  - intros [x [Hx He]]. apply IndexModel_eqb_eq in He. now subst.
  - intros H. exists m. split; [assumption | now apply IndexModel_eqb_eq].
Qed.

(** createIndexes only adds indexes asked for. *)
Lemma createAll_incl (models ixs ixs' : list IndexModel) :
  createAll ixs models = Some ixs' ->
  forall i, In i ixs' -> In i ixs \/ In i models.
Proof.
  revert ixs. induction models as [|m rest IH]; intros ixs H i Hi; cbn in H.
  - injection H as <-. now left.
  - destruct (existsb (IndexModel_eqb m) ixs).
    + destruct (IH ixs H i Hi); [now left | right; now right].
    + destruct (existsb (clash m) ixs); [discriminate|].
      destruct (IH _ H i Hi) as [Hin | Hin]; [|right; now right].
      apply in_app_or in Hin. destruct Hin as [Hin | [<- | []]];
        [now left | right; now left].
Qed.

(** createIndexes with every index in place changes nothing. *)
Lemma createAll_present (models ixs : list IndexModel) :
  (forall m, In m models -> In m ixs) -> createAll ixs models = Some ixs.
Proof.
  induction models as [|m rest IH]; intros H; cbn; [reflexivity|].
  rewrite (proj2 (existsb_IndexModel_eqb m ixs) (H m (or_introl eq_refl))).
  apply IH. intros m' Hm'. apply H. now right.
Qed.

(** createIndexes succeeds when no index asked for clashes with an existing
    one or with another one asked for; it keeps what exists and adds what is
    asked for. *)
Lemma createAll_admitted (models ixs : list IndexModel) :
  (forall m, In m models -> existsb (clash m) ixs = false) ->
  (forall m m', In m models -> In m' models -> clash m m' = false) ->
  exists ixs',
    createAll ixs models = Some ixs'
    /\ (forall i, In i ixs -> In i ixs')
    /\ (forall m, In m models -> In m ixs').
Proof.
  revert ixs. induction models as [|m rest IH]; intros ixs Hc Hp; cbn.
  - exists ixs. split; [reflexivity|]. split; [auto | intros m []].
  - destruct (existsb (IndexModel_eqb m) ixs) eqn:E.
    + destruct (IH ixs) as [ixs' [H1 [H2 H3]]].
      * intros m' Hm'. apply Hc. now right.
      * intros a b Ha Hb. apply Hp; now right.
      * exists ixs'. split; [assumption|]. split; [assumption|].
        intros m' [<- | Hm']; [|now apply H3].
        apply H2. now apply existsb_IndexModel_eqb.
    + rewrite (Hc m (or_introl eq_refl)).
      destruct (IH (ixs ++ [m])) as [ixs' [H1 [H2 H3]]].
      * intros m' Hm'. rewrite existsb_app, (Hc m' (or_intror Hm')). cbn.
        rewrite (Hp m' m (or_intror Hm') (or_introl eq_refl)). reflexivity.
      * intros a b Ha Hb. apply Hp; now right.
      * exists ixs'. split; [assumption|]. split.
        -- intros i Hi. apply H2, in_or_app. now left.
        -- intros m' [<- | Hm']; [|now apply H3].
           apply H2, in_or_app. right. now left.
Qed.

Lemma schema_no_clash (c : collection) (m m' : IndexModel) :
  In m (schema c) -> In m' (schema c) -> clash m m' = false.
Proof.
  destruct c; cbn; intros Hm Hm';
    repeat (destruct Hm as [<- | Hm]; [|]); try contradiction;
    repeat (destruct Hm' as [<- | Hm']; [|]); try contradiction; reflexivity.
Qed.

Lemma admits_spec (ixs : list IndexModel) (c : collection) :
  admits ixs c = true ->
  forall m, In m (schema c) -> existsb (clash m) ixs = false.
Proof.
  unfold admits. rewrite forallb_forall. intros H m Hm.
  specialize (H m Hm). now destruct (existsb (clash m) ixs).
Qed.

Lemma Indexes_setIndexes_same (s : Server) (c : collection) l p :
  Indexes (setIndexes s c l p) c = l.
Proof. destruct c; reflexivity. Qed.

Lemma Indexes_setIndexes_other (s : Server) (c c' : collection) l p :
  c <> c' -> Indexes (setIndexes s c l p) c' = Indexes s c'.
Proof. destruct c, c'; intros H; try reflexivity; now destruct H. Qed.

Lemma Indexes_setIndexes_id (s : Server) (c c' : collection) p :
  Indexes (setIndexes s c (Indexes s c) p) c' = Indexes s c'.
Proof. destruct c, c'; reflexivity. Qed.

Lemma pending_setIndexes (s : Server) (c : collection) l p :
  pending (setIndexes s c l p) = p.
Proof. destruct c; reflexivity. Qed.

Lemma collection_dec (c c' : collection) : c = c' \/ c <> c'.
Proof. destruct c, c'; (now left) || (right; discriminate). Qed.

(** [CreateMany] touches the indexes of its collection only, and adds only
    indexes it is asked for. *)
Lemma CreateMany_incl (c : collection) (models : list IndexModel) (s : Server)
    (c' : collection) (i : IndexModel) :
  In i (Indexes (fst (CreateMany c models s)) c') ->
  In i (Indexes s c') \/ (c' = c /\ In i models).
Proof.
  unfold CreateMany.
  assert (Hid : forall p, In i (Indexes (setIndexes s c (Indexes s c) p) c') ->
                          In i (Indexes s c') \/ (c' = c /\ In i models)).
  { intros p. rewrite Indexes_setIndexes_id. now left. }
  destruct (pending s) as [|[flt|] p]; cbn [fst tl]; try apply Hid;
    (destruct (createAll (Indexes s c) models) as [ixs|] eqn:E;
       cbn [fst]; [|apply Hid]);
    (destruct (collection_dec c c') as [<- | Hne];
       [ rewrite Indexes_setIndexes_same; intros Hi;
         destruct (createAll_incl _ _ _ E i Hi); [now left | right; now split]
       | rewrite (Indexes_setIndexes_other _ _ _ _ _ Hne); now left ]).
Qed.

Lemma schema_not_unique (c : collection) (i : IndexModel) :
  In i (schema c) -> Unique i = false.
Proof.
  destruct c; cbn; intros H;
    repeat (destruct H as [<- | H]; [reflexivity|]); contradiction.
Qed.

End Schema.

Section SchemaProperties.

Import dbschema.

(** X14.  The schema is ensured whatever the order of the map.  Go leaves
    the order in which [range] visits [schema()] open.  When the server
    answers and no existing index clashes with the schema, [ensureDBSchema]
    returns nil for either order and leaves the server in the same state:
    every index of the schema exists and every index that existed is
    kept. *)
Theorem ensureDBSchema_any_order (order : list collection) (s : Server) :
  Permutation schemaKeys order ->
  Forall (fun f => f = None) (pending s) ->
  admits (Indexes s collSubscriptions) collSubscriptions = true ->
  admits (Indexes s collTnxs) collTnxs = true ->
  snd (ensureDBSchema order s) = None
  /\ ensureDBSchema order s = ensureDBSchema schemaKeys s
  /\ (forall c m, In m (schema c) ->
        In m (Indexes (fst (ensureDBSchema order s)) c))
  /\ (forall c i, In i (Indexes s c) ->
        In i (Indexes (fst (ensureDBSchema order s)) c)).
Proof.
  intros Hperm Hp Ha1 Ha2.
  destruct (createAll_admitted (schema collSubscriptions) (ixSubscriptions s)
              (admits_spec _ _ Ha1) (schema_no_clash _)) as [i1 [E1 [K1 M1]]].
  destruct (createAll_admitted (schema collTnxs) (ixTnxs s)
              (admits_spec _ _ Ha2) (schema_no_clash _)) as [i2 [E2 [K2 M2]]].
  assert (Hrun : forall o,
    o = [collSubscriptions; collTnxs] \/ o = [collTnxs; collSubscriptions] ->
    ensureDBSchema o s
    = ({| ixSubscriptions := i1; ixTnxs := i2; ixUsers := ixUsers s;
          pending := tl (tl (pending s)) |}, None)).
  { intros o [-> | ->]; cbn [ensureDBSchema ensureCollection];
      unfold CreateMany;
      (destruct (pending s) as [|[flt|] [|[flt'|] p]];
         try (exfalso; inversion Hp as [|x l H1 H2]; subst;
              (discriminate || (inversion H2; discriminate))));
      cbn [Indexes setIndexes ixSubscriptions ixTnxs ixUsers pending tl];
      rewrite ?E1, ?E2;
      cbn [Indexes setIndexes ixSubscriptions ixTnxs ixUsers pending tl];
      rewrite ?E1, ?E2;
      cbn [Indexes setIndexes ixSubscriptions ixTnxs ixUsers pending tl];
      reflexivity. }
  assert (Ho : order = [collSubscriptions; collTnxs]
               \/ order = [collTnxs; collSubscriptions])
    by (apply Permutation_length_2_inv; exact Hperm).
  rewrite (Hrun order Ho), (Hrun schemaKeys (or_introl eq_refl)).
  cbn [fst snd]. split; [reflexivity|]. split; [reflexivity|]. split.
  - intros [| |] m Hm; cbn [Indexes ixSubscriptions ixTnxs ixUsers];
      [now apply M1 | now apply M2 | destruct Hm].
  - intros [| |] i Hi; cbn [Indexes ixSubscriptions ixTnxs ixUsers] in *;
      [now apply K1 | now apply K2 | assumption].
Qed.

(** A server without indexes, visited txns first. *)
Lemma ensureDBSchema_any_order_witness :
  ensureDBSchema [collTnxs; collSubscriptions]
    {| ixSubscriptions := []; ixTnxs := []; ixUsers := []; pending := [] |}
  = ensureDBSchema schemaKeys
      {| ixSubscriptions := []; ixTnxs := []; ixUsers := []; pending := [] |}.
Proof.
  exact (proj1 (proj2 (ensureDBSchema_any_order [collTnxs; collSubscriptions]
    {| ixSubscriptions := []; ixTnxs := []; ixUsers := []; pending := [] |}
    (perm_swap _ _ _) (Forall_nil _) eq_refl eq_refl))).
Defined.

(** X15.  Starting again is harmless.  On a server where the indexes of the
    schema exist and that answers, [ensureDBSchema] returns nil and leaves
    the indexes of every collection as they are, whatever the order. *)
Theorem ensureDBSchema_present (order : list collection) (s : Server) :
  Forall (fun f => f = None) (pending s) ->
  (forall c m, In m (schema c) -> In m (Indexes s c)) ->
  snd (ensureDBSchema order s) = None
  /\ forall c, Indexes (fst (ensureDBSchema order s)) c = Indexes s c.
Proof.
  revert s. induction order as [|a rest IH]; intros s Hp Hs.
  - now split.
  - cbn [ensureDBSchema ensureCollection]. unfold CreateMany.
    rewrite (createAll_present (schema a) (Indexes s a) (Hs a)).
    assert (Hstep : forall p, Forall (fun f => f = None) p ->
      snd (ensureDBSchema rest (setIndexes s a (Indexes s a) p)) = None
      /\ forall c, Indexes (fst (ensureDBSchema rest
                                   (setIndexes s a (Indexes s a) p))) c
                   = Indexes s c).
    { intros p Hp'. destruct (IH (setIndexes s a (Indexes s a) p)) as [H1 H2].
      - now rewrite pending_setIndexes.
      - intros c m Hm. rewrite Indexes_setIndexes_id. now apply Hs.
      - split; [assumption|]. intros c. rewrite H2.
        apply Indexes_setIndexes_id. }
    destruct (pending s) as [|[flt|] p]; cbn [tl].
    + apply Hstep. constructor.
    + inversion Hp; discriminate.
    + apply Hstep. now inversion Hp.
Qed.

(** A server holding the indexes of the schema. *)
Lemma ensureDBSchema_present_witness :
  snd (ensureDBSchema schemaKeys
         {| ixSubscriptions := schema collSubscriptions;
            ixTnxs := schema collTnxs; ixUsers := []; pending := [] |}) = None.
Proof.
  refine (proj1 (ensureDBSchema_present schemaKeys
    {| ixSubscriptions := schema collSubscriptions;
       ixTnxs := schema collTnxs; ixUsers := []; pending := [] |}
    (Forall_nil _) _)).
  intros [| |] m Hm; exact Hm.
Defined.

(** X16.  What start-up never creates.  Whatever the order, the state of
    the server and the failures, [ensureDBSchema] leaves the indexes of the
    users collection as they are, and every index it adds to a collection is
    an index of the schema of that collection and is not unique: start-up
    puts no uniqueness constraint on any collection. *)
Theorem ensureDBSchema_adds_no_unique_index (order : list collection)
    (s : Server) :
  Indexes (fst (ensureDBSchema order s)) collUsers = Indexes s collUsers
  /\ forall c i, In i (Indexes (fst (ensureDBSchema order s)) c) ->
       In i (Indexes s c) \/ (In i (schema c) /\ Unique i = false).
Proof.
  revert s. induction order as [|a rest IH]; intros s.
  - split; [reflexivity | now left].
  - cbn [ensureDBSchema ensureCollection].
    pose proof (CreateMany_incl a (schema a) s) as Hincl.
    assert (Hu : Indexes (fst (CreateMany a (schema a) s)) collUsers
                 = Indexes s collUsers).
    { unfold CreateMany.
      destruct a; destruct (pending s) as [|[flt|] p]; cbn [fst];
        try reflexivity;
        try (destruct (createAll _ _); reflexivity). }
    destruct (CreateMany a (schema a) s) as [s2 [names|err]]; cbn [fst] in *.
    + destruct (IH s2) as [H1 H2]. split; [now rewrite H1|].
      intros c i Hi. destruct (H2 c i Hi) as [Hin | Hin]; [|now right].
      destruct (Hincl c i Hin) as [Hin' | [-> Hin']]; [now left|].
      right. split; [assumption | now apply (schema_not_unique a)].
    + split; [assumption|]. intros c i Hi.
      destruct (Hincl c i Hi) as [Hin' | [-> Hin']]; [now left|].
      right. split; [assumption | now apply (schema_not_unique a)].
Qed.

(** X17.  A failure stops start-up where it is.  When the creation of the
    indexes of the first collection visited fails, [ensureDBSchema] returns
    the failure under the context "failed to create indexes" and no index is
    created.  When it fails for the second collection, the indexes of the
    first have been created and stay, those of the second are as they were:
    nothing is undone, and which collection is the first is up to the order
    of the map. *)
Theorem ensureDBSchema_failure (a b : collection) (rest : list collection)
    (s : Server) (flt : Fault) (p : list (option Fault)) :
  (pending s = Some flt :: p ->
   snd (ensureDBSchema (a :: rest) s)
     = Some (Context "failed to create indexes" (faultError flt))
   /\ forall c, Indexes (fst (ensureDBSchema (a :: rest) s)) c = Indexes s c)
  /\ (pending s = None :: Some flt :: p ->
      a <> b ->
      admits (Indexes s a) a = true ->
      snd (ensureDBSchema (a :: b :: rest) s)
        = Some (Context "failed to create indexes" (faultError flt))
      /\ (forall m, In m (schema a) ->
            In m (Indexes (fst (ensureDBSchema (a :: b :: rest) s)) a))
      /\ Indexes (fst (ensureDBSchema (a :: b :: rest) s)) b = Indexes s b).
Proof.
  split.
  - intros Hp. cbn [ensureDBSchema ensureCollection]. unfold CreateMany.
    rewrite Hp. cbn [fst snd]. split; [reflexivity|].
    intros c. apply Indexes_setIndexes_id.
  - intros Hp Hne Ha.
    destruct (createAll_admitted (schema a) (Indexes s a)
                (admits_spec _ _ Ha) (schema_no_clash _)) as [i1 [E1 [_ M1]]].
    cbn [ensureDBSchema ensureCollection]. unfold CreateMany.
    rewrite Hp, E1. cbn [tl]. rewrite pending_setIndexes. cbn [fst snd].
    split; [reflexivity|]. split.
    + intros m Hm. rewrite Indexes_setIndexes_other by congruence.
      rewrite Indexes_setIndexes_same. now apply M1.
    + rewrite Indexes_setIndexes_same.
      now rewrite Indexes_setIndexes_other by assumption.
Qed.

(** The server answers the first creation and fails the second, with txns
    visited first: the index of txns is there, subscriptions has none. *)
Lemma ensureDBSchema_failure_witness :
  Indexes (fst (ensureDBSchema [collTnxs; collSubscriptions]
                  {| ixSubscriptions := []; ixTnxs := []; ixUsers := [];
                     pending := [None; Some (FaultOther "connection reset")] |}))
          collSubscriptions = [].
Proof.
  exact (proj2 (proj2 (proj2 (ensureDBSchema_failure collTnxs collSubscriptions []
    {| ixSubscriptions := []; ixTnxs := []; ixUsers := [];
       pending := [None; Some (FaultOther "connection reset")] |}
    (FaultOther "connection reset") []) eq_refl
    (fun H => ltac:(discriminate H)) eq_refl))).
Defined.

End SchemaProperties.
